(** * Yandex MCP server: the shared client, the error classifier and the
      operations built on them

    A shallow embedding of [yandex_mcp.py].  Python values are modelled as
    follows.

    - [str] is [string]; the text is taken as its sequence of bytes, so the
      white space that [str.strip] removes is the ASCII white space.
    - [int] is [Z].
    - A vendor JSON object is a record whose fields are [option]s: [None]
      stands for an absent key.  A leaf value is a [scalar].
    - The process-wide [api_client], the vendor behind the network and the
      list of requests issued so far form the [world]; an operation is a
      function from a world to its result and the world it leaves behind.
    - An exception is a value of [exn]; [try ... except Exception] is
      [guarded]. *)

From Stdlib Require Import ZArith List String Ascii Bool Lia DecimalString.
Import ListNotations.

Open Scope string_scope.
Open Scope Z_scope.

(* ================================================================== *)
(** ** Python strings *)
(* ================================================================== *)

Module PyStr.

(** [str(n)] for an [int]. *)
Definition of_Z (n : Z) : string := NilZero.string_of_int (Z.to_int n).

(** [sep.join(parts)]. *)
Definition join (sep : string) (parts : list string) : string :=
  String.concat sep parts.

(** [s.startswith(p)]. *)
Definition startswith (p s : string) : bool := String.prefix p s.

Definition newline : ascii := "010"%char.
Definition tab : ascii := "009"%char.
Definition nl : string := String newline EmptyString.

(** The ASCII characters for which [str.isspace] holds: tab, line feed,
    vertical tab, form feed, carriage return, the four separators
    0x1c..0x1f and the space. *)
Definition isspace (a : ascii) : bool :=
  let n := N.to_nat (N_of_ascii a) in
  (((9 <=? n) && (n <=? 13)) || ((28 <=? n) && (n <=? 32)))%nat.

Fixpoint lstrip (s : string) : string :=
  match s with
  | EmptyString => EmptyString
  | String a r => if isspace a then lstrip r else s
  end.

Fixpoint rstrip (s : string) : string :=
  match s with
  | EmptyString => EmptyString
  | String a r =>
      match rstrip r with
      | EmptyString => if isspace a then EmptyString else String a EmptyString
      | r' => String a r'
      end
  end.

(** [s.strip()]. *)
Definition strip (s : string) : string := rstrip (lstrip s).

(** [s.split(c)] for a separator of one character: never empty. *)
Fixpoint split (c : ascii) (s : string) : list string :=
  match s with
  | EmptyString => [EmptyString]
  | String a r =>
      if Ascii.eqb a c then EmptyString :: split c r
      else match split c r with
           | [] => [String a EmptyString]
           | h :: t => String a h :: t
           end
  end.

(** Truth value of a string: non-empty. *)
Definition nonempty (s : string) : bool :=
  match s with EmptyString => false | _ => true end.

(** [c in s]. *)
Fixpoint contains (c : ascii) (s : string) : bool :=
  match s with
  | EmptyString => false
  | String a r => Ascii.eqb a c || contains c r
  end.

End PyStr.

(* ================================================================== *)
(** ** JSON values read and written by the operations *)
(* ================================================================== *)

Set Warnings "-register-all".

(** A JSON document built by an operation and sent to the vendor. *)
Inductive json : Type :=
| JNull
| JBool (b : bool)
| JInt (n : Z)
| JStr (s : string)
| JArr (items : list json)
| JObj (members : list (string * json)).

(** A leaf of a vendor document: [None], a boolean, an integer or a string. *)
Inductive scalar : Type :=
| SNone
| SBool (b : bool)
| SInt (n : Z)
| SStr (s : string).

(** [str(v)], as an f-string interpolates it. *)
Definition py_str (v : scalar) : string :=
  match v with
  | SNone => "None"
  | SBool true => "True"
  | SBool false => "False"
  | SInt n => PyStr.of_Z n
  | SStr s => s
  end.

(** Truth value of a leaf. *)
Definition truthy (v : scalar) : bool :=
  match v with
  | SNone => false
  | SBool b => b
  | SInt n => negb (n =? 0)
  | SStr s => PyStr.nonempty s
  end.

(** [d.get(key)] used as a condition: an absent key is [None], hence false. *)
Definition get_truthy (field : option scalar) : bool :=
  match field with
  | Some v => truthy v
  | None => false
  end.

(** [str(d.get(key, default))]. *)
Definition get_str (field : option scalar) (default : string) : string :=
  match field with
  | Some v => py_str v
  | None => default
  end.

(** One entry of [Errors] or [Warnings] of a per-item result. *)
Record ExceptionNotification : Type := {
  Code : option scalar;
  Message : option scalar;
  Details : option scalar
}.

(** One per-item result of a batch call.  [Errors] and [Warnings] are the
    lists under these keys, [[]] when the key is absent: the code only tests
    them for truth and iterates over them. *)
Record ActionResult : Type := {
  Id : option scalar;
  Errors : list ExceptionNotification;
  Warnings : list ExceptionNotification
}.

(** The object under ["error"] of a vendor document. *)
Record ErrorObject : Type := {
  error_string : option scalar;
  error_detail : option scalar
}.

(** What [response.json()] returns: an object with the keys the operations
    read.  ["result"] maps the name of a result list ("SuspendResults", ...)
    to that list. *)
Record document : Type := {
  result : option (list (string * list ActionResult));
  error : option ErrorObject;
  success : option scalar
}.

(** The outcome of [response.json()]: the document, or the message of the
    [json.JSONDecodeError] it raises (a [ValueError]). *)
Inductive decoded : Type :=
| Decoded (d : document)
| Undecodable (msg : string).

Record http_response : Type := {
  status_code : Z;
  text : string;
  json_doc : decoded
}.

Record http_request : Type := {
  verb : string;
  url : string;
  headers : list (string * string);
  query : option json;
  payload : option json;
  timeout : Z
}.

(* ================================================================== *)
(** ** Exceptions, the world and the monad of operations *)
(* ================================================================== *)

Inductive exn : Type :=
| HTTPStatusError (response : http_response)
| TimeoutException
| ValueError (msg : string)
| OtherError (type_name msg : string).

(** What the transport does with a request: a response, or an exception
    ([TimeoutException], a connection error, ...). *)
Inductive transport_result : Type :=
| Responds (r : http_response)
| Fails (e : exn).

(** [class YandexAPIClient]: the fields read once from the environment. *)
Record YandexAPIClient : Type := {
  direct_token : string;
  metrika_token : string;
  unified_token : string;
  client_login : string;
  use_sandbox : bool
}.

Record world : Type := {
  api_client : YandexAPIClient;
  vendor : http_request -> transport_result;
  sent : list http_request
}.

Inductive outcome (A : Type) : Type :=
| Returns (a : A)
| Raises (e : exn).
Arguments Returns {A} a.
Arguments Raises {A} e.

Definition M (A : Type) : Type := world -> outcome A * world.

Definition ret {A} (a : A) : M A := fun w => (Returns a, w).

Definition raise {A} (e : exn) : M A := fun w => (Raises e, w).

Definition bind {A B} (m : M A) (k : A -> M B) : M B :=
  fun w =>
    match m w with
    | (Returns a, w') => k a w'
    | (Raises e, w') => (Raises e, w')
    end.

Notation "x <- m ;; k" := (bind m (fun x => k))
  (at level 61, m at next level, right associativity).
Notation "m ;;; k" := (bind m (fun _ => k))
  (at level 61, right associativity).

(** The process-wide client. *)
Definition get_client : M YandexAPIClient := fun w => (Returns (api_client w), w).

(** One HTTP exchange: the request is recorded, then the vendor answers. *)
Definition send (req : http_request) : M http_response :=
  fun w =>
    let w' := {| api_client := api_client w;
                 vendor := vendor w;
                 sent := (sent w ++ [req])%list |} in
    match vendor w req with
    | Responds r => (Returns r, w')
    | Fails e => (Raises e, w')
    end.

(** [response.raise_for_status()]: only a 2xx status passes. *)
Definition raise_for_status (r : http_response) : M unit :=
  if (200 <=? status_code r) && (status_code r <? 300)
  then ret tt
  else raise (HTTPStatusError r).

(** [response.json()]. *)
Definition response_json (r : http_response) : M document :=
  match json_doc r with
  | Decoded d => ret d
  | Undecodable msg => raise (ValueError msg)
  end.

(* ================================================================== *)
(** ** Configuration and the API client *)
(* ================================================================== *)

Definition YANDEX_DIRECT_API_URL : string := "https://api.direct.yandex.com/json/v5".
Definition YANDEX_DIRECT_API_URL_V501 : string := "https://api.direct.yandex.com/json/v501".
Definition YANDEX_DIRECT_SANDBOX_URL : string := "https://api-sandbox.direct.yandex.com/json/v5".
Definition YANDEX_METRIKA_API_URL : string := "https://api-metrika.yandex.net".

Definition DEFAULT_TIMEOUT : Z := 30.

(** [a or b] on strings. *)
Definition str_or (a b : string) : string :=
  if PyStr.nonempty a then a else b.

Definition _get_direct_token (self : YandexAPIClient) : string :=
  str_or (direct_token self) (unified_token self).

Definition _get_metrika_token (self : YandexAPIClient) : string :=
  str_or (metrika_token self) (unified_token self).

Definition _get_direct_url (self : YandexAPIClient) (use_v501 : bool) : string :=
  if use_sandbox self then YANDEX_DIRECT_SANDBOX_URL
  else if use_v501 then YANDEX_DIRECT_API_URL_V501 else YANDEX_DIRECT_API_URL.

Definition direct_request (service method : string) (params : json)
    (use_v501 : bool) : M document :=
  self <- get_client ;;
  let token := _get_direct_token self in
  if negb (PyStr.nonempty token) then
    raise (ValueError
      ("Yandex Direct API token not configured. " ++
       "Set YANDEX_DIRECT_TOKEN or YANDEX_TOKEN environment variable."))
  else
    let url := _get_direct_url self use_v501 ++ "/" ++ service in
    let headers :=
      [("Authorization", "Bearer " ++ token);
       ("Accept-Language", "ru");
       ("Content-Type", "application/json")] in
    let headers :=
      if PyStr.nonempty (client_login self)
      then (headers ++ [("Client-Login", client_login self)])%list
      else headers in
    let payload := JObj [("method", JStr method); ("params", params)] in
    response <- send {| verb := "POST"; url := url; headers := headers;
                        query := None; payload := Some payload;
                        timeout := DEFAULT_TIMEOUT |} ;;
    raise_for_status response ;;;
    response_json response.

Definition metrika_request (endpoint method : string) (params data : option json)
    : M document :=
  self <- get_client ;;
  let token := _get_metrika_token self in
  if negb (PyStr.nonempty token) then
    raise (ValueError
      ("Yandex Metrika API token not configured. " ++
       "Set YANDEX_METRIKA_TOKEN or YANDEX_TOKEN environment variable."))
  else
    let url := YANDEX_METRIKA_API_URL ++ endpoint in
    let headers :=
      [("Authorization", "OAuth " ++ token);
       ("Content-Type", "application/json")] in
    let request (v : string) (body : option json) :=
      {| verb := v; url := url; headers := headers;
         query := params; payload := body; timeout := DEFAULT_TIMEOUT |} in
    response <-
      (if String.eqb method "GET" then send (request "GET" None)
       else if String.eqb method "POST" then send (request "POST" data)
       else if String.eqb method "PUT" then send (request "PUT" data)
       else if String.eqb method "DELETE" then send (request "DELETE" None)
       else raise (ValueError ("Unsupported HTTP method: " ++ method))) ;;
    raise_for_status response ;;;
    if status_code response =? 204 then
      ret {| result := None; error := None; success := Some (SBool true) |}
    else response_json response.

(* ================================================================== *)
(** ** The error classifier *)
(* ================================================================== *)

Definition error_messages (status : Z) : option string :=
  match status with
  | 400 => Some "Bad request. Check your parameters."
  | 401 => Some "Authentication failed. Check your API token."
  | 403 => Some "Access denied. Check permissions for this operation."
  | 404 => Some "Resource not found. Check the ID."
  | 429 => Some "Rate limit exceeded. Wait before making more requests."
  | 500 => Some "Server error. Try again later."
  | 503 => Some "Service unavailable. Try again later."
  | _ => None
  end.

(** The [try] block of [_handle_api_error]: the vendor's own message when the
    body of the response decodes and carries a non-empty ["error_string"];
    [None] when the block falls through to the table. *)
Definition vendor_error_text (response : http_response) : option string :=
  match json_doc response with
  | Undecodable _ => None
  | Decoded error_body =>
      let error_msg :=
        match error error_body with
        | Some e => match error_string e with Some v => v | None => SStr EmptyString end
        | None => SStr EmptyString
        end in
      let error_detail :=
        match error error_body with
        | Some e => match error_detail e with Some v => v | None => SStr EmptyString end
        | None => SStr EmptyString
        end in
      if truthy error_msg then
        Some (PyStr.strip
                ("API Error (" ++ PyStr.of_Z (status_code response) ++ "): " ++
                 py_str error_msg ++ ". " ++ py_str error_detail))
      else None
  end.

Definition _handle_api_error (e : exn) : string :=
  match e with
  | HTTPStatusError response =>
      let status := status_code response in
      match vendor_error_text response with
      | Some s => s
      | None =>
          "API Error: " ++
          match error_messages status with
          | Some m => m
          | None => "Request failed with status " ++ PyStr.of_Z status
          end
      end
  | TimeoutException =>
      "Request timed out. The operation may still complete on the server."
  | ValueError msg => "Configuration Error: " ++ msg
  | OtherError type_name msg =>
      "Unexpected error: " ++ type_name ++ ": " ++ msg
  end.

(** [try: body  except Exception as e: return _handle_api_error(e)]. *)
Definition guarded (body : M string) : world -> string * world :=
  fun w =>
    match body w with
    | (Returns s, w') => (s, w')
    | (Raises e, w') => (_handle_api_error e, w')
    end.

(* ================================================================== *)
(** ** [json.dumps(value, indent=2, ensure_ascii=False)] *)
(* ================================================================== *)

Module Json.

Definition hex_digit (n : N) : ascii :=
  if (n <? 10)%N then ascii_of_N (48 + n) else ascii_of_N (87 + n).

Definition backslash : string := String (ascii_of_N 92) EmptyString.

(** One character inside a JSON string literal. *)
Definition escape_char (a : ascii) : string :=
  let n := N_of_ascii a in
  if (n =? 34)%N then backslash ++ String a EmptyString
  else if (n =? 92)%N then backslash ++ backslash
  else if (n =? 10)%N then backslash ++ "n"
  else if (n =? 13)%N then backslash ++ "r"
  else if (n =? 9)%N then backslash ++ "t"
  else if (n =? 8)%N then backslash ++ "b"
  else if (n =? 12)%N then backslash ++ "f"
  else if (n <? 32)%N then
    backslash ++ "u00" ++
    String (hex_digit (n / 16)) (String (hex_digit (n mod 16)) EmptyString)
  else String a EmptyString.

Fixpoint escape (s : string) : string :=
  match s with
  | EmptyString => EmptyString
  | String a r => escape_char a ++ escape r
  end.

Definition quote : string := String (ascii_of_N 34) EmptyString.

Definition encode_string (s : string) : string := quote ++ escape s ++ quote.

Fixpoint spaces (n : nat) : string :=
  match n with
  | O => EmptyString
  | S k => " " ++ spaces k
  end.

(** The line break followed by the indentation of nesting depth [level]. *)
Definition newline_indent (level : nat) : string :=
  PyStr.nl ++ spaces (2 * level).

Fixpoint dumps_at (level : nat) (j : json) : string :=
  match j with
  | JNull => "null"
  | JBool true => "true"
  | JBool false => "false"
  | JInt n => PyStr.of_Z n
  | JStr s => encode_string s
  | JArr [] => "[]"
  | JArr items =>
      "[" ++ newline_indent (S level) ++
      PyStr.join ("," ++ newline_indent (S level))
                 (map (dumps_at (S level)) items) ++
      newline_indent level ++ "]"
  | JObj [] => "{}"
  | JObj members =>
      "{" ++ newline_indent (S level) ++
      PyStr.join ("," ++ newline_indent (S level))
                 (map (fun '(k, v) => encode_string k ++ ": " ++ dumps_at (S level) v)
                      members) ++
      newline_indent level ++ "}"
  end.

Definition dumps (j : json) : string := dumps_at 0 j.

(** [d[k] = v] on a dictionary kept in insertion order. *)
Fixpoint set_item (k : string) (v : json) (d : list (string * json))
    : list (string * json) :=
  match d with
  | [] => [(k, v)]
  | (k', v') :: rest =>
      if String.eqb k' k then (k', v) :: rest
      else (k', v') :: set_item k v rest
  end.

(** [dict(pairs)]. *)
Definition dict (pairs : list (string * json)) : list (string * json) :=
  fold_left (fun d kv => set_item (fst kv) (snd kv) d) pairs [].

End Json.

(* ================================================================== *)
(** ** Input models *)
(* ================================================================== *)

Inductive ResponseFormat : Type := MARKDOWN | JSON.


(** Truth value of an optional string: present and non-empty. *)
Definition given (field : option string) : bool :=
  match field with
  | Some s => PyStr.nonempty s
  | None => false
  end.

Module ManageCampaignInput.
Record t : Type := { campaign_ids : list Z }.
End ManageCampaignInput.

Module ManageAdInput.
Record t : Type := { ad_ids : list Z }.
End ManageAdInput.

Module UpdateTextAdInput.
Record t : Type := {
  ad_id : Z;
  title : option string;
  title2 : option string;
  text : option string;
  href : option string
}.

End UpdateTextAdInput.

Module GetCounterInput.
Record t : Type := { counter_id : Z; response_format : ResponseFormat }.
End GetCounterInput.

Module DirectReportInput.
Record t : Type := {
  report_type : string;
  date_from : string;
  date_to : string;
  field_names : list string;
  campaign_ids : option (list Z);
  include_vat : bool;
  response_format : ResponseFormat
}.
End DirectReportInput.

(* ================================================================== *)
(** ** Batch management of campaigns and ads *)
(* ================================================================== *)

(** Truth value of a list: non-empty. *)
Definition any_items {A : Type} (l : list A) : bool :=
  match l with
  | [] => false
  | _ :: _ => true
  end.

(** [len(l)]. *)
Definition len {A : Type} (l : list A) : Z := Z.of_nat (List.length l).

(** [result.get("result", {}).get(key, [])]. *)
Definition get_results (key : string) (d : document) : list ActionResult :=
  match result d with
  | Some lists =>
      match find (fun kv => String.eqb (fst kv) key) lists with
      | Some kv => snd kv
      | None => []
      end
  | None => []
  end.

(** [{"SelectionCriteria": {"Ids": ids}}]. *)
Definition selection_by_ids (ids : list Z) : json :=
  JObj [("SelectionCriteria", JObj [("Ids", JArr (map JInt ids))])].

(** [[r["Id"] for r in results if r.get("Id")]]: what the loop of the
    campaign suspend and resume operations appends to [success]. *)
Definition ids_present (results : list ActionResult) : list (option scalar) :=
  map Id (filter (fun r => get_truthy (Id r)) results).

(** [[r["Id"] for r in results if r.get("Id") and not r.get("Errors")]]. *)
Definition ids_without_errors (results : list ActionResult) : list (option scalar) :=
  map Id (filter (fun r => get_truthy (Id r) && negb (any_items (Errors r)))
                 results).

(** The lines one per-item result adds to [errors]:
    [[f"ID {r.get('Id', '?')}: {e.get('Message', 'Unknown error')}" for e in r["Errors"]]]
    when [r.get("Errors")] holds, nothing otherwise. *)
Definition id_error_lines (r : ActionResult) : list string :=
  map (fun e => "ID " ++ get_str (Id r) "?" ++ ": " ++
                get_str (Message e) "Unknown error")
      (Errors r).

(** [errors] after the loop over the per-item results. *)
Definition collect_errors (results : list ActionResult) : list string :=
  flat_map id_error_lines results.

(** [if errors: response += "\n\nErrors:\n" + "\n".join(f"- {e}" for e in errors)]. *)
Definition append_errors (response : string) (errors : list string) : string :=
  if any_items errors then
    response ++ PyStr.nl ++ PyStr.nl ++ "Errors:" ++ PyStr.nl ++
    PyStr.join PyStr.nl (map (fun e => "- " ++ e) errors)
  else response.

Definition direct_suspend_campaigns (params : ManageCampaignInput.t)
    : world -> string * world :=
  guarded (
    let request_params := selection_by_ids (ManageCampaignInput.campaign_ids params) in
    result <- direct_request "campaigns" "suspend" request_params false ;;
    let suspend_results := get_results "SuspendResults" result in
    let success := ids_present suspend_results in
    let errors := collect_errors suspend_results in
    let response :=
      "Successfully suspended " ++ PyStr.of_Z (len success) ++ " campaign(s)." in
    ret (append_errors response errors)).

Definition direct_resume_campaigns (params : ManageCampaignInput.t)
    : world -> string * world :=
  guarded (
    let request_params := selection_by_ids (ManageCampaignInput.campaign_ids params) in
    result <- direct_request "campaigns" "resume" request_params false ;;
    let resume_results := get_results "ResumeResults" result in
    let success := ids_present resume_results in
    let errors := collect_errors resume_results in
    let response :=
      "Successfully resumed " ++ PyStr.of_Z (len success) ++ " campaign(s)." in
    ret (append_errors response errors)).

Definition direct_archive_campaigns (params : ManageCampaignInput.t)
    : world -> string * world :=
  guarded (
    let request_params := selection_by_ids (ManageCampaignInput.campaign_ids params) in
    result <- direct_request "campaigns" "archive" request_params false ;;
    let archive_results := get_results "ArchiveResults" result in
    let success := ids_without_errors archive_results in
    let errors := collect_errors archive_results in
    let response :=
      "Successfully archived " ++ PyStr.of_Z (len success) ++ " campaign(s)." in
    ret (append_errors response errors)).

Definition direct_unarchive_campaigns (params : ManageCampaignInput.t)
    : world -> string * world :=
  guarded (
    let request_params := selection_by_ids (ManageCampaignInput.campaign_ids params) in
    result <- direct_request "campaigns" "unarchive" request_params false ;;
    let unarchive_results := get_results "UnarchiveResults" result in
    let success := ids_without_errors unarchive_results in
    let errors := collect_errors unarchive_results in
    let response :=
      "Successfully unarchived " ++ PyStr.of_Z (len success) ++ " campaign(s)." in
    ret (append_errors response errors)).

Definition direct_delete_campaigns (params : ManageCampaignInput.t)
    : world -> string * world :=
  guarded (
    let request_params := selection_by_ids (ManageCampaignInput.campaign_ids params) in
    result <- direct_request "campaigns" "delete" request_params false ;;
    let delete_results := get_results "DeleteResults" result in
    let success := ids_without_errors delete_results in
    let errors := collect_errors delete_results in
    let response :=
      "Successfully deleted " ++ PyStr.of_Z (len success) ++ " campaign(s)." in
    ret (append_errors response errors)).

(** The ad operations [suspend] and [resume] build no [errors] list. *)
Definition direct_suspend_ads (params : ManageAdInput.t)
    : world -> string * world :=
  guarded (
    let request_params := selection_by_ids (ManageAdInput.ad_ids params) in
    result <- direct_request "ads" "suspend" request_params false ;;
    let suspend_results := get_results "SuspendResults" result in
    let success := ids_without_errors suspend_results in
    ret ("Successfully suspended " ++ PyStr.of_Z (len success) ++ " ad(s).")).

Definition direct_resume_ads (params : ManageAdInput.t)
    : world -> string * world :=
  guarded (
    let request_params := selection_by_ids (ManageAdInput.ad_ids params) in
    result <- direct_request "ads" "resume" request_params false ;;
    let resume_results := get_results "ResumeResults" result in
    let success := ids_without_errors resume_results in
    ret ("Successfully resumed " ++ PyStr.of_Z (len success) ++ " ad(s).")).

Definition direct_delete_ads (params : ManageAdInput.t)
    : world -> string * world :=
  guarded (
    let request_params := selection_by_ids (ManageAdInput.ad_ids params) in
    result <- direct_request "ads" "delete" request_params false ;;
    let delete_results := get_results "DeleteResults" result in
    let success := ids_without_errors delete_results in
    let errors := collect_errors delete_results in
    let response :=
      "Successfully deleted " ++ PyStr.of_Z (len success) ++ " ad(s)." in
    ret (append_errors response errors)).

Definition direct_archive_ads (params : ManageAdInput.t)
    : world -> string * world :=
  guarded (
    let request_params := selection_by_ids (ManageAdInput.ad_ids params) in
    result <- direct_request "ads" "archive" request_params false ;;
    let archive_results := get_results "ArchiveResults" result in
    let success := ids_without_errors archive_results in
    let errors := collect_errors archive_results in
    let response :=
      "Successfully archived " ++ PyStr.of_Z (len success) ++ " ad(s)." in
    ret (append_errors response errors)).

Definition direct_unarchive_ads (params : ManageAdInput.t)
    : world -> string * world :=
  guarded (
    let request_params := selection_by_ids (ManageAdInput.ad_ids params) in
    result <- direct_request "ads" "unarchive" request_params false ;;
    let unarchive_results := get_results "UnarchiveResults" result in
    let success := ids_without_errors unarchive_results in
    let errors := collect_errors unarchive_results in
    let response :=
      "Successfully unarchived " ++ PyStr.of_Z (len success) ++ " ad(s)." in
    ret (append_errors response errors)).

(* ================================================================== *)
(** ** Updating a text ad *)
(* ================================================================== *)

(** The entries that [if params.field: text_ad_update[key] = params.field]
    inserts, in order. *)
Definition optional_entry (key : string) (field : option string)
    : list (string * json) :=
  match field with
  | Some s => if PyStr.nonempty s then [(key, JStr s)] else []
  | None => []
  end.

(** The messages of one per-item result of an update: its errors, then its
    warnings with their prefix. *)
Definition update_issue_lines (r : ActionResult) : list string :=
  List.app
    (map (fun e => get_str (Message e) "Unknown error") (Errors r))
    (map (fun w => "Warning: " ++ get_str (Message w) "Unknown warning") (Warnings r)).

Definition direct_update_ad (params : UpdateTextAdInput.t)
    : world -> string * world :=
  guarded (
    let text_ad_update :=
      (optional_entry "Title" (UpdateTextAdInput.title params) ++
       optional_entry "Title2" (UpdateTextAdInput.title2 params) ++
       optional_entry "Text" (UpdateTextAdInput.text params) ++
       optional_entry "Href" (UpdateTextAdInput.href params))%list in
    if negb (any_items text_ad_update) then
      ret "No fields specified for update."
    else
      let ad_update :=
        JObj [("Id", JInt (UpdateTextAdInput.ad_id params));
              ("TextAd", JObj text_ad_update)] in
      let request_params := JObj [("Ads", JArr [ad_update])] in
      result <- direct_request "ads" "update" request_params false ;;
      let update_results := get_results "UpdateResults" result in
      let errors := flat_map update_issue_lines update_results in
      if any_items errors then
        ret ("Update completed with issues:" ++ PyStr.nl ++
             PyStr.join PyStr.nl (map (fun e => "- " ++ e) errors))
      else
        ret ("Ad " ++ PyStr.of_Z (UpdateTextAdInput.ad_id params) ++
             " updated successfully. Note: Submit for moderation using direct_moderate_ads.")).

(* ================================================================== *)
(** ** Deleting an analytics counter *)
(* ================================================================== *)

Definition metrika_delete_counter (params : GetCounterInput.t)
    : world -> string * world :=
  guarded (
    metrika_request
      ("/management/v1/counter/" ++ PyStr.of_Z (GetCounterInput.counter_id params))
      "DELETE" None None ;;;
    ret ("Counter " ++ PyStr.of_Z (GetCounterInput.counter_id params) ++
         " deleted successfully.")).

(* ================================================================== *)
(** ** The ads statistics report *)
(* ================================================================== *)

Definition ROW_LIMIT : nat := 100.

(** The lines of the response body: [response.text.strip().split("\n")]. *)
Definition tsv_lines (body : string) : list string :=
  PyStr.split PyStr.newline (PyStr.strip body).

(** [[line.split("\t") for line in lines[1:] if line.strip()]]. *)
Definition tsv_data_rows (lines : list string) : list (list string) :=
  map (PyStr.split PyStr.tab)
      (filter (fun line => PyStr.nonempty (PyStr.strip line)) (tl lines)).

Definition table_row (cells : list string) : string :=
  "| " ++ PyStr.join " | " cells ++ " |".

(** [md_lines] of the markdown branch up to the table's separator row. *)
Definition statistics_head_lines (params : DirectReportInput.t)
    (header : list string) : list string :=
  ["# Direct Statistics Report" ++ PyStr.nl;
   "**Period**: " ++ DirectReportInput.date_from params ++ " — " ++
     DirectReportInput.date_to params;
   "**Report type**: " ++ DirectReportInput.report_type params ++ PyStr.nl;
   table_row header;
   table_row (map (fun _ => "---") header)].

(** [f"\n*...and {n} more rows*"]. *)
Definition more_rows (n : Z) : string :=
  PyStr.nl ++ "*...and " ++ PyStr.of_Z n ++ " more rows*".

(** [md_lines] of the markdown branch. *)
Definition statistics_md_lines (params : DirectReportInput.t)
    (header : list string) (data_rows : list (list string)) : list string :=
  List.app
    (statistics_head_lines params header)
    (List.app
       (map table_row (firstn ROW_LIMIT data_rows))
       (if (ROW_LIMIT <? List.length data_rows)%nat
        then [more_rows (len data_rows - Z.of_nat ROW_LIMIT)]
        else [])).

(** What the operation returns on a 200 response with body [body]. *)
Definition statistics_of_body (params : DirectReportInput.t) (body : string)
    : string :=
  let lines := tsv_lines body in
  if (List.length lines <? 2)%nat then "No data found for the specified period."
  else
    let header := PyStr.split PyStr.tab (hd EmptyString lines) in
    let data_rows := tsv_data_rows lines in
    match DirectReportInput.response_format params with
    | JSON =>
        let result :=
          map (fun row => JObj (Json.dict (combine header (map JStr row)))) data_rows in
        Json.dumps (JObj [("data", JArr result); ("total", JInt (len result))])
    | MARKDOWN =>
        PyStr.join PyStr.nl (statistics_md_lines params header data_rows)
    end.

Definition report_definition (params : DirectReportInput.t) : json :=
  let criteria :=
    [("DateFrom", JStr (DirectReportInput.date_from params));
     ("DateTo", JStr (DirectReportInput.date_to params))] in
  let criteria :=
    match DirectReportInput.campaign_ids params with
    | Some (cid :: cids) =>
        List.app criteria
          [("Filter",
            JArr [JObj [("Field", JStr "CampaignId");
                        ("Operator", JStr "IN");
                        ("Values", JArr (map (fun c => JStr (PyStr.of_Z c)) (cid :: cids)))]])]
    | _ => criteria
    end in
  JObj [("SelectionCriteria", JObj criteria);
        ("FieldNames", JArr (map JStr (DirectReportInput.field_names params)));
        ("ReportName", JStr ("Report_" ++ DirectReportInput.date_from params ++ "_" ++
                             DirectReportInput.date_to params));
        ("ReportType", JStr (DirectReportInput.report_type params));
        ("DateRangeType", JStr "CUSTOM_DATE");
        ("Format", JStr "TSV");
        ("IncludeVAT", JStr (if DirectReportInput.include_vat params then "YES" else "NO"));
        ("IncludeDiscount", JStr "NO")].

(** The request of the report: its own headers and time limit. *)
Definition statistics_request (self : YandexAPIClient) (token : string)
    (report_def : json) : http_request :=
  let url := _get_direct_url self false ++ "/reports" in
  let headers :=
    [("Authorization", "Bearer " ++ token);
     ("Accept-Language", "ru");
     ("Content-Type", "application/json");
     ("processingMode", "auto");
     ("returnMoneyInMicros", "false");
     ("skipReportHeader", "true");
     ("skipColumnHeader", "false");
     ("skipReportSummary", "true")] in
  let headers :=
    if PyStr.nonempty (client_login self)
    then (headers ++ [("Client-Login", client_login self)])%list
    else headers in
  {| verb := "POST"; url := url; headers := headers;
     query := None;
     payload := Some (JObj [("params", report_def)]);
     timeout := 120 |}.

(** The operation returns [None] when it falls off its last branch: a status
    other than 200, 201 and 202 that [raise_for_status] lets pass. *)
Definition direct_get_statistics (params : DirectReportInput.t)
    : world -> option string * world :=
  fun w =>
    let body : M (option string) :=
      let report_def := report_definition params in
      self <- get_client ;;
      let token := _get_direct_token self in
      if negb (PyStr.nonempty token) then
        raise (ValueError "Yandex Direct API token not configured.")
      else
        response <- send (statistics_request self token report_def) ;;
        if status_code response =? 200 then
          ret (Some (statistics_of_body params (text response)))
        else if (status_code response =? 201) || (status_code response =? 202) then
          ret (Some "Report is being generated. Please try again in a few seconds.")
        else
          raise_for_status response ;;;
          ret None
    in
    match body w with
    | (Returns r, w') => (r, w')
    | (Raises e, w') => (Some (_handle_api_error e), w')
    end.

(* ================================================================== *)
(** ** Response formatters *)
(* ================================================================== *)

(** Python's float arithmetic and float formatting are not part of the
    repository: the formatters take them as an interface.  [num] is the type
    of the numbers of a document. *)
Class Formatting (num : Type) : Type := {
  (** [format(x, ".2f")] *)
  format_2f : num -> string;
  (** [format(x, ",.2f")] *)
  format_grouped_2f : num -> string
}.


(** In the entity records below an object-valued field is [None] when the
    key is absent or the object is empty, so that [Some] is a true value. *)

Module DailyBudget.
Record t : Type := { Amount : option Z; Mode : option scalar }.
End DailyBudget.

Module Statistics.
Record t : Type := { Clicks : option scalar; Impressions : option scalar }.
End Statistics.

Module Campaign.
Record t : Type := {
  Name : option scalar;
  Id : option scalar;
  Type_ : option scalar;
  State : option scalar;
  Status : option scalar;
  DailyBudget : option DailyBudget.t;
  Statistics : option Statistics.t
}.
End Campaign.

Module TextAd.
Record t : Type := {
  Title : option scalar;
  Title2 : option scalar;
  Text : option scalar;
  Href : option scalar
}.
End TextAd.

Module Ad.
Record t : Type := {
  Id : option scalar;
  AdGroupId : option scalar;
  CampaignId : option scalar;
  State : option scalar;
  Status : option scalar;
  TextAd : option TextAd.t
}.
End Ad.

Module AdGroup.
Record t : Type := {
  Name : option scalar;
  Id : option scalar;
  CampaignId : option scalar;
  Type_ : option scalar;
  Status : option scalar;
  RegionIds : list Z
}.
End AdGroup.

Module Keyword.
Record t : Type := {
  Keyword : option scalar;
  Id : option scalar;
  AdGroupId : option scalar;
  State : option scalar;
  Status : option scalar;
  Bid : option Z
}.
End Keyword.

Module Site.
Record t : Type := { site : option scalar }.
End Site.

Module Counter.
Record t : Type := {
  name : option scalar;
  id : option scalar;
  site2 : option Site.t;
  status : option scalar;
  code_status : option scalar;
  owner_login : option scalar;
  favorite : option scalar
}.
End Counter.












(** *** The analytics reports *)



(** One entry of a row's ["dimensions"]: an object, or a plain value. *)
Inductive dimension : Type :=
| DimObject (name id : option scalar)
| DimValue (v : scalar).

(** One entry of ["time_intervals"]: a list of bounds, or a plain value. *)
Inductive interval : Type :=
| IntervalList (bounds : list scalar)
| IntervalValue (v : scalar).

Module MetrikaQuery.
Record t : Type := {
  date1 : option scalar;
  date2 : option scalar;
  dimensions : list string;
  metrics : list string
}.
End MetrikaQuery.

Module ReportRow.
Record t (num : Type) : Type := {
  dimensions : list dimension;
  metrics : list num
}.
Arguments dimensions {num} _.
Arguments metrics {num} _.
End ReportRow.

Module MetrikaReport.
Record t (num : Type) : Type := {
  query : option MetrikaQuery.t;
  totals : list num;
  data : list (ReportRow.t num)
}.
Arguments query {num} _.
Arguments totals {num} _.
Arguments data {num} _.
End MetrikaReport.

Module ByTimeRow.
Record t (num : Type) : Type := {
  dimensions : list dimension;
  (** [None] when the key is absent: the code then takes [[[]]]. *)
  metrics : option (list (list num))
}.
Arguments dimensions {num} _.
Arguments metrics {num} _.
End ByTimeRow.

Module ByTimeReport.
Record t (num : Type) : Type := {
  query : option MetrikaQuery.t;
  time_intervals : list interval;
  data : list (ByTimeRow.t num)
}.
Arguments query {num} _.
Arguments time_intervals {num} _.
Arguments data {num} _.
End ByTimeReport.






(** The lines of ["## Totals"], by position [i] of the total. *)
Fixpoint totals_lines {num} `{Formatting num} (metrics : list string)
    (i : nat) (totals : list num) : list string :=
  match totals with
  | [] => []
  | total :: rest =>
      let metric_name :=
        match nth_error metrics i with
        | Some m => m
        | None => "Metric " ++ PyStr.of_Z (Z.of_nat i + 1)
        end in
      ("- **" ++ metric_name ++ "**: " ++ format_grouped_2f total)
        :: totals_lines metrics (S i) rest
  end.












(* ================================================================== *)
(** ** Further operations of the ads catalog *)
(* ================================================================== *)

Module ManageKeywordInput.
Record t : Type := { keyword_ids : list Z }.
End ManageKeywordInput.

Module UpdateAdGroupInput.
Record t : Type := {
  adgroup_id : Z;
  name : option string;
  region_ids : option (list Z);
  negative_keywords : option (list string);
  tracking_params : option string
}.
End UpdateAdGroupInput.

Module CreateAdGroupInput.
Record t : Type := {
  campaign_id : Z;
  name : string;
  region_ids : list Z;
  negative_keywords : option (list string)
}.
End CreateAdGroupInput.

Module CreateTextAdInput.
Record t : Type := {
  adgroup_id : Z;
  title : string;
  title2 : option string;
  text : string;
  href : string;
  mobile : bool
}.
End CreateTextAdInput.

Definition direct_moderate_ads (params : ManageAdInput.t)
    : world -> string * world :=
  guarded (
    let request_params := selection_by_ids (ManageAdInput.ad_ids params) in
    result <- direct_request "ads" "moderate" request_params false ;;
    let moderate_results := get_results "ModerateResults" result in
    let success := ids_without_errors moderate_results in
    let errors := collect_errors moderate_results in
    let response :=
      "Successfully submitted " ++ PyStr.of_Z (len success) ++ " ad(s) for moderation." in
    ret (append_errors response errors)).

Definition direct_delete_keywords (params : ManageKeywordInput.t)
    : world -> string * world :=
  guarded (
    let request_params := selection_by_ids (ManageKeywordInput.keyword_ids params) in
    result <- direct_request "keywords" "delete" request_params false ;;
    let delete_results := get_results "DeleteResults" result in
    let success := ids_without_errors delete_results in
    let errors := collect_errors delete_results in
    let response :=
      "Successfully deleted " ++ PyStr.of_Z (len success) ++ " keyword(s)." in
    ret (append_errors response errors)).

(** [{"Items": items}]. *)
Definition items_object (items : list string) : json :=
  JObj [("Items", JArr (map JStr items))].

(** The dictionary [adgroup_update] as the four conditions fill it. *)
Definition adgroup_update_fields (params : UpdateAdGroupInput.t)
    : list (string * json) :=
  List.app
    [("Id", JInt (UpdateAdGroupInput.adgroup_id params))]
  (List.app
    (optional_entry "Name" (UpdateAdGroupInput.name params))
  (List.app
    match UpdateAdGroupInput.region_ids params with
    | Some (r :: rs) => [("RegionIds", JArr (map JInt (r :: rs)))]
    | _ => []
    end
  (List.app
    match UpdateAdGroupInput.negative_keywords params with
    | Some items => [("NegativeKeywords", items_object items)]
    | None => []
    end
    (optional_entry "TrackingParams" (UpdateAdGroupInput.tracking_params params))))).

Definition direct_update_adgroup (params : UpdateAdGroupInput.t)
    : world -> string * world :=
  guarded (
    let adgroup_update := JObj (adgroup_update_fields params) in
    let request_params := JObj [("AdGroups", JArr [adgroup_update])] in
    result <- direct_request "adgroups" "update" request_params false ;;
    let update_results := get_results "UpdateResults" result in
    let errors := flat_map update_issue_lines update_results in
    if any_items errors then
      ret ("Update completed with issues:" ++ PyStr.nl ++
           PyStr.join PyStr.nl (map (fun e => "- " ++ e) errors))
    else
      ret ("Ad group " ++ PyStr.of_Z (UpdateAdGroupInput.adgroup_id params) ++
           " updated successfully.")).

(** [add_results and add_results[0].get("Id")]: the id of the first result
    when it is a true value. *)
Definition first_id (add_results : list ActionResult) : option scalar :=
  match add_results with
  | r :: _ => if get_truthy (Id r) then Id r else None
  | [] => None
  end.

(** The messages of the errors of all results, without prefix. *)
Definition error_messages_of (results : list ActionResult) : list string :=
  flat_map (fun r => map (fun e => get_str (Message e) "Unknown error") (Errors r))
           results.

Definition direct_create_adgroup (params : CreateAdGroupInput.t)
    : world -> string * world :=
  guarded (
    let adgroup :=
      List.app
        [("Name", JStr (CreateAdGroupInput.name params));
         ("CampaignId", JInt (CreateAdGroupInput.campaign_id params));
         ("RegionIds", JArr (map JInt (CreateAdGroupInput.region_ids params)))]
        match CreateAdGroupInput.negative_keywords params with
        | Some (k :: ks) => [("NegativeKeywords", items_object (k :: ks))]
        | _ => []
        end in
    let request_params := JObj [("AdGroups", JArr [JObj adgroup])] in
    result <- direct_request "adgroups" "add" request_params false ;;
    let add_results := get_results "AddResults" result in
    match first_id add_results with
    | Some id => ret ("Ad group created successfully. ID: " ++ py_str id)
    | None =>
        let errors := error_messages_of add_results in
        ret ("Failed to create ad group:" ++ PyStr.nl ++
             PyStr.join PyStr.nl (map (fun e => "- " ++ e) errors))
    end).

Definition direct_create_text_ad (params : CreateTextAdInput.t)
    : world -> string * world :=
  guarded (
    let text_ad :=
      List.app
        [("Title", JStr (CreateTextAdInput.title params));
         ("Text", JStr (CreateTextAdInput.text params));
         ("Href", JStr (CreateTextAdInput.href params));
         ("Mobile", JStr (if CreateTextAdInput.mobile params then "YES" else "NO"))]
        (optional_entry "Title2" (CreateTextAdInput.title2 params)) in
    let ad :=
      JObj [("AdGroupId", JInt (CreateTextAdInput.adgroup_id params));
            ("TextAd", JObj text_ad)] in
    let request_params := JObj [("Ads", JArr [ad])] in
    result <- direct_request "ads" "add" request_params false ;;
    let add_results := get_results "AddResults" result in
    match first_id add_results with
    | Some id =>
        ret ("Ad created successfully. ID: " ++ py_str id ++ PyStr.nl ++ PyStr.nl ++
             "Note: Submit for moderation using direct_moderate_ads.")
    | None =>
        let errors := error_messages_of add_results in
        ret ("Failed to create ad:" ++ PyStr.nl ++
             PyStr.join PyStr.nl (map (fun e => "- " ++ e) errors))
    end).

(* ================================================================== *)
(** * Properties *)
(* ================================================================== *)

(** The world after [req] has been issued from [w]. *)
Definition after_sending (w : world) (req : http_request) : world :=
  {| api_client := api_client w;
     vendor := vendor w;
     sent := (sent w ++ [req])%list |}.

(** The request by which the counter [counter_id] is deleted. *)
Definition delete_counter_request (self : YandexAPIClient) (counter_id : Z)
    : http_request :=
  {| verb := "DELETE";
     url := YANDEX_METRIKA_API_URL ++ "/management/v1/counter/" ++ PyStr.of_Z counter_id;
     headers := [("Authorization", "OAuth " ++ _get_metrika_token self);
                 ("Content-Type", "application/json")];
     query := None;
     payload := None;
     timeout := DEFAULT_TIMEOUT |}.

(** A response whose body gives [_handle_api_error] no vendor message: it
    does not decode, or it has no true ["error_string"] under ["error"]. *)
Definition no_vendor_error (response : http_response) : bool :=
  match json_doc response with
  | Undecodable _ => true
  | Decoded body =>
      match error body with
      | Some e => negb (get_truthy (error_string e))
      | None => true
      end
  end.


(** A client without any token, and one with a token for both services. *)
Definition no_tokens : YandexAPIClient :=
  {| direct_token := EmptyString; metrika_token := EmptyString;
     unified_token := EmptyString; client_login := EmptyString;
     use_sandbox := false |}.

Definition unified_only : YandexAPIClient :=
  {| direct_token := EmptyString; metrika_token := EmptyString;
     unified_token := "y0_token"; client_login := EmptyString;
     use_sandbox := false |}.

(** A vendor that answers every request with [r]. *)
Definition answering (self : YandexAPIClient) (r : http_response) : world :=
  {| api_client := self; vendor := fun _ => Responds r; sent := [] |}.

Definition no_content : http_response :=
  {| status_code := 204; text := EmptyString;
     json_doc := Undecodable "Expecting value: line 1 column 1 (char 0)" |}.

(** The request that [direct_request] issues. *)
Definition direct_call_request (self : YandexAPIClient) (service method : string)
    (params : json) (use_v501 : bool) : http_request :=
  {| verb := "POST";
     url := _get_direct_url self use_v501 ++ "/" ++ service;
     headers :=
       (if PyStr.nonempty (client_login self)
        then [("Authorization", "Bearer " ++ _get_direct_token self);
              ("Accept-Language", "ru");
              ("Content-Type", "application/json");
              ("Client-Login", client_login self)]
        else [("Authorization", "Bearer " ++ _get_direct_token self);
              ("Accept-Language", "ru");
              ("Content-Type", "application/json")]);
     query := None;
     payload := Some (JObj [("method", JStr method); ("params", params)]);
     timeout := DEFAULT_TIMEOUT |}.

(** A 200 response carrying the document [d]. *)
Definition ok_json (d : document) : http_response :=
  {| status_code := 200; text := EmptyString; json_doc := Decoded d |}.

(** The document [{"result": {key: results}}]. *)
Definition results_document (key : string) (results : list ActionResult) : document :=
  {| result := Some [(key, results)]; error := None; success := None |}.

(** A per-item result of a success and of a failure with one error. *)
Definition item_ok (id : Z) : ActionResult :=
  {| Id := Some (SInt id); Errors := []; Warnings := [] |}.

Definition item_failed (code : Z) (message : string) : ActionResult :=
  {| Id := None;
     Errors := [{| Code := Some (SInt code); Message := Some (SStr message);
                   Details := None |}];
     Warnings := [] |}.

(** The lines of a result that itemize an error: those that start with
    ["- "]. *)
Definition itemized_lines (s : string) : list string :=
  filter (PyStr.startswith "- ") (PyStr.split PyStr.newline s).

(** A vendor item counts as a success when it carries an id and no error. *)
Definition succeeded (r : ActionResult) : bool :=
  get_truthy (Id r) && negb (any_items (Errors r)).

(** A vendor item of a failure: no id, and exactly one error. *)
Definition failed_once (r : ActionResult) : bool :=
  negb (get_truthy (Id r)) && (List.length (Errors r) =? 1)%nat.

(** No line break in what an item contributes to an error line. *)
Definition single_line (r : ActionResult) : bool :=
  negb (PyStr.contains PyStr.newline (get_str (Id r) "?")) &&
  forallb (fun e => negb (PyStr.contains PyStr.newline
                            (get_str (Message e) "Unknown error")))
          (Errors r).

(** The batch operations that itemize per-item errors. *)
Inductive itemizing_operation : Type :=
| SuspendCampaigns | ResumeCampaigns | ArchiveCampaigns | UnarchiveCampaigns
| DeleteCampaigns | ArchiveAds | UnarchiveAds | DeleteAds.

Definition run_itemizing (op : itemizing_operation) (ids : list Z)
    : world -> string * world :=
  match op with
  | SuspendCampaigns => direct_suspend_campaigns {| ManageCampaignInput.campaign_ids := ids |}
  | ResumeCampaigns => direct_resume_campaigns {| ManageCampaignInput.campaign_ids := ids |}
  | ArchiveCampaigns => direct_archive_campaigns {| ManageCampaignInput.campaign_ids := ids |}
  | UnarchiveCampaigns => direct_unarchive_campaigns {| ManageCampaignInput.campaign_ids := ids |}
  | DeleteCampaigns => direct_delete_campaigns {| ManageCampaignInput.campaign_ids := ids |}
  | ArchiveAds => direct_archive_ads {| ManageAdInput.ad_ids := ids |}
  | UnarchiveAds => direct_unarchive_ads {| ManageAdInput.ad_ids := ids |}
  | DeleteAds => direct_delete_ads {| ManageAdInput.ad_ids := ids |}
  end.

(** Service, method, key of the result list, and the words of the summary. *)
Definition service_of (op : itemizing_operation) : string :=
  match op with
  | ArchiveAds | UnarchiveAds | DeleteAds => "ads"
  | _ => "campaigns"
  end.

Definition method_of (op : itemizing_operation) : string :=
  match op with
  | SuspendCampaigns => "suspend"
  | ResumeCampaigns => "resume"
  | ArchiveCampaigns | ArchiveAds => "archive"
  | UnarchiveCampaigns | UnarchiveAds => "unarchive"
  | DeleteCampaigns | DeleteAds => "delete"
  end.

Definition results_key (op : itemizing_operation) : string :=
  match op with
  | SuspendCampaigns => "SuspendResults"
  | ResumeCampaigns => "ResumeResults"
  | ArchiveCampaigns | ArchiveAds => "ArchiveResults"
  | UnarchiveCampaigns | UnarchiveAds => "UnarchiveResults"
  | DeleteCampaigns | DeleteAds => "DeleteResults"
  end.

Definition summary_of (op : itemizing_operation) (k : Z) : string :=
  "Successfully " ++
  match op with
  | SuspendCampaigns => "suspended"
  | ResumeCampaigns => "resumed"
  | ArchiveCampaigns | ArchiveAds => "archived"
  | UnarchiveCampaigns | UnarchiveAds => "unarchived"
  | DeleteCampaigns | DeleteAds => "deleted"
  end ++ " " ++ PyStr.of_Z k ++ " " ++
  match op with
  | ArchiveAds | UnarchiveAds | DeleteAds => "ad(s)."
  | _ => "campaign(s)."
  end.



(** A vendor that accepts the first of two items and rejects the second with
    one error, under the result key [key]. *)
Definition partial_failure (key : string) : world :=
  answering unified_only
    (ok_json (results_document key [item_ok 1; item_failed 8800 "Object not found"])).

(** The request of the statistics report for [params]. *)
Definition report_request (self : YandexAPIClient) (params : DirectReportInput.t)
    : http_request :=
  statistics_request self (_get_direct_token self) (report_definition params).


(** A markdown report of one week of campaigns, and a body of a header line
    and 101 data lines. *)
Definition weekly_report : DirectReportInput.t :=
  {| DirectReportInput.report_type := "CAMPAIGN_PERFORMANCE_REPORT";
     DirectReportInput.date_from := "2024-01-01";
     DirectReportInput.date_to := "2024-01-07";
     DirectReportInput.field_names := ["CampaignName"; "Clicks"];
     DirectReportInput.campaign_ids := None;
     DirectReportInput.include_vat := true;
     DirectReportInput.response_format := MARKDOWN |}.




(** The request that [metrika_request] issues for a supported [method]: the
    JSON body goes with POST and PUT only. *)
Definition metrika_call_request (self : YandexAPIClient) (endpoint method : string)
    (params data : option json) : http_request :=
  {| verb := method;
     url := YANDEX_METRIKA_API_URL ++ endpoint;
     headers := [("Authorization", "OAuth " ++ _get_metrika_token self);
                 ("Content-Type", "application/json")];
     query := params;
     payload := if String.eqb method "POST" || String.eqb method "PUT"
                then data else None;
     timeout := DEFAULT_TIMEOUT |}.

(** A status that [raise_for_status] lets pass. *)
Definition is_success (status : Z) : bool :=
  (200 <=? status) && (status <? 300).

(** A client with a sub-account login and the sandbox switched on. *)
Definition agency_sandbox : YandexAPIClient :=
  {| direct_token := "direct-token"; metrika_token := EmptyString;
     unified_token := "y0_token"; client_login := "client-42";
     use_sandbox := true |}.

(** A vendor that fails every request with [e]. *)
Definition failing (self : YandexAPIClient) (e : exn) : world :=
  {| api_client := self; vendor := fun _ => Fails e; sent := [] |}.

Definition rate_limited : http_response :=
  {| status_code := 429; text := "Too Many Requests";
     json_doc := Undecodable "Expecting value: line 1 column 1 (char 0)" |}.

Definition empty_ok : http_response :=
  {| status_code := 200; text := EmptyString;
     json_doc := Undecodable "Expecting value: line 1 column 1 (char 0)" |}.



(** A response of the reports service with [status] and no body. *)
Definition report_status (status : Z) : http_response :=
  {| status_code := status; text := EmptyString;
     json_doc := Undecodable "Expecting value: line 1 column 1 (char 0)" |}.


(** The digits of a numeral, last first, with a comma after every third. *)
Fixpoint group_reversed (seen : nat) (digits : list ascii) : list ascii :=
  match digits with
  | [] => []
  | d :: rest =>
      if (seen =? 3)%nat then ","%char :: d :: group_reversed 1 rest
      else d :: group_reversed (S seen) rest
  end.

Definition grouped (n : Z) : string :=
  (if n <? 0 then "-" else EmptyString) ++
  string_of_list_ascii
    (rev (group_reversed 0 (rev (list_ascii_of_string (PyStr.of_Z (Z.abs n)))))).

(** Integer metrics, as Python formats an [int] with the two specifications
    (exact while the integer is below 2^53 in magnitude, where the
    conversion to a float loses nothing): used to run the report formatters
    on examples. *)
Definition plain_integers : Formatting Z :=
  {| format_2f := fun n => PyStr.of_Z n ++ ".00";
     format_grouped_2f := fun n => grouped n ++ ".00" |}.

(** The name under which the total at position [i] is shown. *)
Definition metric_name_at (metrics : list string) (i : nat) : string :=
  match nth_error metrics i with
  | Some m => m
  | None => "Metric " ++ PyStr.of_Z (Z.of_nat i + 1)
  end.



(** The fields of [text_ad_update] for [params]. *)
Definition text_ad_update_of (params : UpdateTextAdInput.t) : list (string * json) :=
  List.app (optional_entry "Title" (UpdateTextAdInput.title params))
    (List.app (optional_entry "Title2" (UpdateTextAdInput.title2 params))
       (List.app (optional_entry "Text" (UpdateTextAdInput.text params))
                 (optional_entry "Href" (UpdateTextAdInput.href params)))).

(** The vendor keys of the optional fields of a text-ad update. *)
Definition optional_fields (params : UpdateTextAdInput.t)
    : list (string * option string) :=
  [("Title", UpdateTextAdInput.title params);
   ("Title2", UpdateTextAdInput.title2 params);
   ("Text", UpdateTextAdInput.text params);
   ("Href", UpdateTextAdInput.href params)].

(** The request of the update of a text ad. *)
Definition ad_update_request (self : YandexAPIClient) (params : UpdateTextAdInput.t)
    : http_request :=
  direct_call_request self "ads" "update"
    (JObj [("Ads",
            JArr [JObj [("Id", JInt (UpdateTextAdInput.ad_id params));
                        ("TextAd", JObj (text_ad_update_of params))]])])
    false.

(** A per-item result without errors and warnings. *)
Definition clean (r : ActionResult) : bool :=
  negb (any_items (Errors r)) && negb (any_items (Warnings r)).

(** An update of the second title alone. *)
Definition retitle : UpdateTextAdInput.t :=
  {| UpdateTextAdInput.ad_id := 42;
     UpdateTextAdInput.title := None;
     UpdateTextAdInput.title2 := Some "Free delivery";
     UpdateTextAdInput.text := Some EmptyString;
     UpdateTextAdInput.href := None |}.

(** A result that was applied with a warning. *)
Definition item_warned (id : Z) (message : string) : ActionResult :=
  {| Id := Some (SInt id);
     Errors := [];
     Warnings := [{| Code := Some (SInt 10000); Message := Some (SStr message);
                     Details := None |}] |}.

(** A 200 answer that carries the vendor's error object and no result. *)
Definition error_document : document :=
  {| result := None;
     error := Some {| error_string := Some (SStr "Invalid OAuth token");
                      error_detail := Some (SStr "Token expired") |};
     success := None |}.

(** The requests of the two creations. *)
Definition create_adgroup_request (self : YandexAPIClient)
    (params : CreateAdGroupInput.t) : http_request :=
  direct_call_request self "adgroups" "add"
    (JObj [("AdGroups",
            JArr [JObj (List.app
                          [("Name", JStr (CreateAdGroupInput.name params));
                           ("CampaignId", JInt (CreateAdGroupInput.campaign_id params));
                           ("RegionIds",
                            JArr (map JInt (CreateAdGroupInput.region_ids params)))]
                          match CreateAdGroupInput.negative_keywords params with
                          | Some (k :: ks) => [("NegativeKeywords", items_object (k :: ks))]
                          | _ => []
                          end)])])
    false.

Definition create_text_ad_request (self : YandexAPIClient)
    (params : CreateTextAdInput.t) : http_request :=
  direct_call_request self "ads" "add"
    (JObj [("Ads",
            JArr [JObj [("AdGroupId", JInt (CreateTextAdInput.adgroup_id params));
                        ("TextAd",
                         JObj (List.app
                                 [("Title", JStr (CreateTextAdInput.title params));
                                  ("Text", JStr (CreateTextAdInput.text params));
                                  ("Href", JStr (CreateTextAdInput.href params));
                                  ("Mobile",
                                   JStr (if CreateTextAdInput.mobile params
                                         then "YES" else "NO"))]
                                 (optional_entry "Title2"
                                    (CreateTextAdInput.title2 params))))]])])
    false.

(** The request of the update of an ad group. *)
Definition adgroup_update_request (self : YandexAPIClient)
    (params : UpdateAdGroupInput.t) : http_request :=
  direct_call_request self "adgroups" "update"
    (JObj [("AdGroups", JArr [JObj (adgroup_update_fields params)])])
    false.

Definition moscow_group : CreateAdGroupInput.t :=
  {| CreateAdGroupInput.campaign_id := 7;
     CreateAdGroupInput.name := "Moscow";
     CreateAdGroupInput.region_ids := [213];
     CreateAdGroupInput.negative_keywords := Some [] |}.

(** An update of an ad group that names nothing to change, and one that
    clears the negative keywords. *)
Definition untouched_group : UpdateAdGroupInput.t :=
  {| UpdateAdGroupInput.adgroup_id := 9;
     UpdateAdGroupInput.name := None;
     UpdateAdGroupInput.region_ids := None;
     UpdateAdGroupInput.negative_keywords := None;
     UpdateAdGroupInput.tracking_params := None |}.

Definition cleared_keywords : UpdateAdGroupInput.t :=
  {| UpdateAdGroupInput.adgroup_id := 9;
     UpdateAdGroupInput.name := None;
     UpdateAdGroupInput.region_ids := Some [];
     UpdateAdGroupInput.negative_keywords := Some [];
     UpdateAdGroupInput.tracking_params := Some EmptyString |}.

(** [out] reports the vendor list [results] in full: the summary with the
    number [K] of successes, then one itemized line per failure, [N - K] of
    them. *)
Definition reports_in_full (summary : Z -> string) (results : list ActionResult)
    (out : string) : Prop :=
  exists errors : list string,
    out = append_errors (summary (len (filter succeeded results))) errors /\
    itemized_lines out = map (fun e => "- " ++ e) errors /\
    (List.length errors + List.length (filter succeeded results)
     = List.length results)%nat.

(** A vendor list of which every item is a success or a failure with one
    error, and nothing breaks a line. *)
Definition well_formed_results (results : list ActionResult) : bool :=
  forallb (fun r => succeeded r || failed_once r) results &&
  forallb single_line results.

Definition moderation_summary (k : Z) : string :=
  "Successfully submitted " ++ PyStr.of_Z k ++ " ad(s) for moderation.".

Definition keyword_deletion_summary (k : Z) : string :=
  "Successfully deleted " ++ PyStr.of_Z k ++ " keyword(s).".

(** The operations of the ads catalog that go through the shared client,
    with their inputs. *)
Inductive ads_operation : Type :=
| OnCampaigns (op : itemizing_operation) (ids : list Z)
| SuspendAds (params : ManageAdInput.t)
| ResumeAds (params : ManageAdInput.t)
| ModerateAds (params : ManageAdInput.t)
| DeleteKeywords (params : ManageKeywordInput.t)
| UpdateAd (params : UpdateTextAdInput.t)
| UpdateAdGroup (params : UpdateAdGroupInput.t)
| CreateAdGroup (params : CreateAdGroupInput.t)
| CreateTextAd (params : CreateTextAdInput.t).

Definition run_ads (op : ads_operation) : world -> string * world :=
  match op with
  | OnCampaigns op ids => run_itemizing op ids
  | SuspendAds params => direct_suspend_ads params
  | ResumeAds params => direct_resume_ads params
  | ModerateAds params => direct_moderate_ads params
  | DeleteKeywords params => direct_delete_keywords params
  | UpdateAd params => direct_update_ad params
  | UpdateAdGroup params => direct_update_adgroup params
  | CreateAdGroup params => direct_create_adgroup params
  | CreateTextAd params => direct_create_text_ad params
  end.

(** A request to a service of the ads API in its version 5, in production
    or in the sandbox. *)
Definition to_version_5 (req : http_request) : Prop :=
  verb req = "POST" /\
  timeout req = DEFAULT_TIMEOUT /\
  exists service : string,
    url req = YANDEX_DIRECT_API_URL ++ "/" ++ service \/
    url req = YANDEX_DIRECT_SANDBOX_URL ++ "/" ++ service.


(** A client with both a token of its own for each service and the unified
    one. *)
Definition all_tokens : YandexAPIClient :=
  {| direct_token := "direct-token"; metrika_token := "metrika-token";
     unified_token := "y0_token"; client_login := EmptyString;
     use_sandbox := false |}.

(** The value of the [Authorization] header of a request. *)
Definition authorization (req : http_request) : option string :=
  option_map snd (find (fun h => String.eqb (fst h) "Authorization") (headers req)).

(** ** The client *)

Lemma nonempty_false (s : string) : PyStr.nonempty s = false <-> s = EmptyString.
Proof.
  destruct s; simpl; split; intro E; try reflexivity; discriminate E.
Qed.

Lemma str_or_empty (a b : string) :
  a = EmptyString -> b = EmptyString -> str_or a b = EmptyString.
Proof. intros -> ->. reflexivity. Qed.

Lemma direct_request_without_token service method params use_v501 (w : world) :
  direct_token (api_client w) = EmptyString ->
  unified_token (api_client w) = EmptyString ->
  direct_request service method params use_v501 w =
  (Raises (ValueError
     ("Yandex Direct API token not configured. " ++
      "Set YANDEX_DIRECT_TOKEN or YANDEX_TOKEN environment variable.")), w).
Proof.
  intros Hd Hu. unfold direct_request, bind, get_client, _get_direct_token.
  rewrite (str_or_empty _ _ Hd Hu). reflexivity.
Qed.

Lemma metrika_request_without_token endpoint method params data (w : world) :
  metrika_token (api_client w) = EmptyString ->
  unified_token (api_client w) = EmptyString ->
  metrika_request endpoint method params data w =
  (Raises (ValueError
     ("Yandex Metrika API token not configured. " ++
      "Set YANDEX_METRIKA_TOKEN or YANDEX_TOKEN environment variable.")), w).
Proof.
  intros Hm Hu. unfold metrika_request, bind, get_client, _get_metrika_token.
  rewrite (str_or_empty _ _ Hm Hu). reflexivity.
Qed.

(** C10.  The sandbox flag alone selects the sandbox host, whatever the
    version flag; the v501 host is selected exactly when the sandbox is off
    and the version flag is on, the production host exactly when both are
    off; the three hosts are distinct, so each pair of flags selects exactly
    one of them. *)
Theorem direct_url_selection (self : YandexAPIClient) (use_v501 : bool) :
  (_get_direct_url self use_v501 = YANDEX_DIRECT_SANDBOX_URL
     <-> use_sandbox self = true) /\
  (_get_direct_url self use_v501 = YANDEX_DIRECT_API_URL_V501
     <-> use_sandbox self = false /\ use_v501 = true) /\
  (_get_direct_url self use_v501 = YANDEX_DIRECT_API_URL
     <-> use_sandbox self = false /\ use_v501 = false) /\
  YANDEX_DIRECT_SANDBOX_URL <> YANDEX_DIRECT_API_URL_V501 /\
  YANDEX_DIRECT_SANDBOX_URL <> YANDEX_DIRECT_API_URL /\
  YANDEX_DIRECT_API_URL_V501 <> YANDEX_DIRECT_API_URL.
Proof.
  unfold _get_direct_url.
  destruct (use_sandbox self), use_v501; repeat split;
    try reflexivity; try discriminate;
    try (intros [E1 E2]; discriminate);
    intro E; discriminate E.
Qed.

(** C7.  A call of the analytics client with a method other than GET, POST,
    PUT and DELETE raises a [ValueError], which the classifier reports as a
    configuration error, and leaves the world as it was: no request is
    issued and the client is unchanged. *)
Theorem unsupported_method_fails_before_network
    (endpoint method : string) (params data : option json) (w : world) :
  method <> "GET" -> method <> "POST" -> method <> "PUT" -> method <> "DELETE" ->
  exists msg,
    metrika_request endpoint method params data w = (Raises (ValueError msg), w) /\
    _handle_api_error (ValueError msg) = "Configuration Error: " ++ msg.
Proof.
  intros Hg Hpo Hpu Hd.
  unfold metrika_request, bind, get_client.
  destruct (negb (PyStr.nonempty (_get_metrika_token (api_client w)))).
  - eexists. split; reflexivity.
  - apply String.eqb_neq in Hg, Hpo, Hpu, Hd.
    rewrite Hg, Hpo, Hpu, Hd. eexists. split; reflexivity.
Qed.

Lemma unsupported_method_witness :
  exists msg,
    metrika_request "/stat/v1/data" "PATCH" None None (answering unified_only no_content)
    = (Raises (ValueError msg), answering unified_only no_content) /\
    _handle_api_error (ValueError msg) = "Configuration Error: " ++ msg.
Proof.
  apply (unsupported_method_fails_before_network
           "/stat/v1/data" "PATCH" None None (answering unified_only no_content));
    discriminate.
Defined.

(** ** The error classifier *)

Lemma vendor_error_text_none (response : http_response) :
  no_vendor_error response = true -> vendor_error_text response = None.
Proof.
  unfold no_vendor_error, vendor_error_text.
  destruct (json_doc response) as [body | msg]; [ | reflexivity ].
  destruct (error body) as [e | ]; [ | reflexivity ].
  destruct (error_string e) as [v | ]; simpl; [ | reflexivity ].
  intro E. apply negb_true_iff in E. rewrite E. reflexivity.
Qed.

(** The classifier is a function: every exception is mapped to a string of
    one of its four families. *)
Lemma classifier_families (e : exn) :
  match e with
  | HTTPStatusError response =>
      vendor_error_text response = Some (_handle_api_error e) \/
      exists m, _handle_api_error e = "API Error: " ++ m
  | TimeoutException =>
      _handle_api_error e =
      "Request timed out. The operation may still complete on the server."
  | ValueError msg => _handle_api_error e = "Configuration Error: " ++ msg
  | OtherError type_name msg =>
      _handle_api_error e = "Unexpected error: " ++ type_name ++ ": " ++ msg
  end.
Proof.
  destruct e as [response | | msg | type_name msg]; try reflexivity.
  simpl. destruct (vendor_error_text response) as [s | ].
  - left. reflexivity.
  - right. eexists. reflexivity.
Qed.

(** C6, as the code has it.  For an HTTP status error whose body carries no
    vendor message the classifier returns ["API Error: "] followed by the
    message of the table for the statuses 400, 401, 403, 404, 429, 500 and
    503, and by ["Request failed with status <status>"] for every other
    status. *)
Theorem status_error_messages (response : http_response) :
  no_vendor_error response = true ->
  (status_code response = 400 ->
   _handle_api_error (HTTPStatusError response)
   = "API Error: Bad request. Check your parameters.") /\
  (status_code response = 401 ->
   _handle_api_error (HTTPStatusError response)
   = "API Error: Authentication failed. Check your API token.") /\
  (status_code response = 403 ->
   _handle_api_error (HTTPStatusError response)
   = "API Error: Access denied. Check permissions for this operation.") /\
  (status_code response = 404 ->
   _handle_api_error (HTTPStatusError response)
   = "API Error: Resource not found. Check the ID.") /\
  (status_code response = 429 ->
   _handle_api_error (HTTPStatusError response)
   = "API Error: Rate limit exceeded. Wait before making more requests.") /\
  (status_code response = 500 ->
   _handle_api_error (HTTPStatusError response)
   = "API Error: Server error. Try again later.") /\
  (status_code response = 503 ->
   _handle_api_error (HTTPStatusError response)
   = "API Error: Service unavailable. Try again later.") /\
  (~ In (status_code response) [400; 401; 403; 404; 429; 500; 503] ->
   _handle_api_error (HTTPStatusError response)
   = "API Error: Request failed with status " ++ PyStr.of_Z (status_code response)).
Proof.
  intro Hno. unfold _handle_api_error.
  rewrite (vendor_error_text_none _ Hno).
  repeat split; try (intros ->; reflexivity).
  intro Hout.
  assert (E : error_messages (status_code response) = None).
  { unfold error_messages.
    destruct (status_code response) as [ | p | p ]; try reflexivity.
    repeat (destruct p as [p | p | ]; try reflexivity);
      exfalso; apply Hout; simpl; tauto. }
  rewrite E. reflexivity.
Qed.

Lemma status_error_messages_witness :
  _handle_api_error
    (HTTPStatusError {| status_code := 418; text := "I'm a teapot";
                        json_doc := Undecodable "Expecting value" |})
  = "API Error: Request failed with status 418".
Proof.
  apply (status_error_messages
           {| status_code := 418; text := "I'm a teapot";
              json_doc := Undecodable "Expecting value" |} eq_refl).
  simpl. intros [E | [E | [E | [E | [E | [E | [E | []]]]]]]]; discriminate E.
Defined.

(** C6 as stated fails: for the unlisted status 418 the result is not the
    bare sentence. *)
Lemma status_error_bare_sentence_counterexample :
  _handle_api_error
    (HTTPStatusError {| status_code := 418; text := "I'm a teapot";
                        json_doc := Undecodable "Expecting value" |})
  <> "Request failed with status 418".
Proof. vm_compute. discriminate. Qed.

(** ** Missing tokens *)

(** C2, as the code has it.  Without the token of a service, an operation
    whose body gets as far as the call of the shared client returns
    ["Configuration Error: "] followed by the client's message and leaves
    the world as it was, so no request is issued; so does the statistics
    report, which checks the token itself. *)
Theorem missing_token_is_configuration_error (w : world) :
  unified_token (api_client w) = EmptyString ->
  (direct_token (api_client w) = EmptyString ->
   (forall service method params use_v501 (rest : document -> M string),
      exists msg,
        guarded (result <- direct_request service method params use_v501 ;;
                 rest result) w
        = ("Configuration Error: " ++ msg, w)) /\
   (forall params,
      exists msg,
        direct_get_statistics params w
        = (Some ("Configuration Error: " ++ msg), w))) /\
  (metrika_token (api_client w) = EmptyString ->
   forall endpoint method params data (rest : document -> M string),
     exists msg,
       guarded (result <- metrika_request endpoint method params data ;;
                rest result) w
       = ("Configuration Error: " ++ msg, w)).
Proof.
  intro Hu. split.
  - intro Hd. split.
    + intros. eexists. unfold guarded, bind at 1.
      rewrite (direct_request_without_token _ _ _ _ w Hd Hu). reflexivity.
    + intros. eexists. unfold direct_get_statistics, bind, get_client, _get_direct_token.
      rewrite (str_or_empty _ _ Hd Hu). reflexivity.
  - intros Hm **. eexists. unfold guarded, bind at 1.
    rewrite (metrika_request_without_token _ _ _ _ w Hm Hu). reflexivity.
Qed.

Lemma missing_token_witness :
  (exists msg,
     direct_delete_campaigns {| ManageCampaignInput.campaign_ids := [1; 2] |}
       (answering no_tokens no_content)
     = ("Configuration Error: " ++ msg, answering no_tokens no_content)) /\
  (exists msg,
     metrika_delete_counter
       {| GetCounterInput.counter_id := 555;
          GetCounterInput.response_format := MARKDOWN |}
       (answering no_tokens no_content)
     = ("Configuration Error: " ++ msg, answering no_tokens no_content)).
Proof.
  split.
  - exact (proj1 (proj1 (missing_token_is_configuration_error
                           (answering no_tokens no_content) eq_refl) eq_refl)
             "campaigns" "delete" _ false _).
  - exact (proj2 (missing_token_is_configuration_error
                    (answering no_tokens no_content) eq_refl) eq_refl
             _ "DELETE" None None _).
Defined.

(** C2 as stated fails: without any token, the update of a text ad with no
    field to update returns its own sentence. *)
Lemma missing_token_counterexample :
  direct_token no_tokens = EmptyString /\
  unified_token no_tokens = EmptyString /\
  direct_update_ad
    {| UpdateTextAdInput.ad_id := 7;
       UpdateTextAdInput.title := None;
       UpdateTextAdInput.title2 := None;
       UpdateTextAdInput.text := None;
       UpdateTextAdInput.href := None |}
    (answering no_tokens no_content)
  = ("No fields specified for update.", answering no_tokens no_content) /\
  PyStr.startswith "Configuration Error: "
    (fst (direct_update_ad
            {| UpdateTextAdInput.ad_id := 7;
               UpdateTextAdInput.title := None;
               UpdateTextAdInput.title2 := None;
               UpdateTextAdInput.text := None;
               UpdateTextAdInput.href := None |}
            (answering no_tokens no_content)))
  = false.
Proof. repeat split. Qed.

(** ** Deleting a counter *)

(** C8.  With a token for the analytics service, when the vendor answers the
    DELETE request for the counter with status 204, the client returns the
    document [{"success": True}] and the operation returns
    ["Counter <id> deleted successfully."], having issued that one request;
    for the counter 555 this is ["Counter 555 deleted successfully."]. *)
Theorem delete_counter_on_no_content
    (w : world) (counter_id : Z) (fmt : ResponseFormat) (r : http_response) :
  PyStr.nonempty (_get_metrika_token (api_client w)) = true ->
  vendor w (delete_counter_request (api_client w) counter_id) = Responds r ->
  status_code r = 204 ->
  metrika_request ("/management/v1/counter/" ++ PyStr.of_Z counter_id)
                  "DELETE" None None w
  = (Returns {| result := None; error := None; success := Some (SBool true) |},
     after_sending w (delete_counter_request (api_client w) counter_id)) /\
  metrika_delete_counter
    {| GetCounterInput.counter_id := counter_id;
       GetCounterInput.response_format := fmt |} w
  = ("Counter " ++ PyStr.of_Z counter_id ++ " deleted successfully.",
     after_sending w (delete_counter_request (api_client w) counter_id)).
Proof.
  intros Htoken Hvendor Hstatus.
  assert (E : metrika_request ("/management/v1/counter/" ++ PyStr.of_Z counter_id)
                "DELETE" None None w
              = (Returns {| result := None; error := None;
                            success := Some (SBool true) |},
                 after_sending w (delete_counter_request (api_client w) counter_id))).
  { unfold metrika_request, bind at 1, get_client.
    rewrite Htoken.
    change (String.eqb "DELETE" "GET") with false.
    change (String.eqb "DELETE" "POST") with false.
    change (String.eqb "DELETE" "PUT") with false.
    change (String.eqb "DELETE" "DELETE") with true.
    cbv beta iota delta [negb bind send].
    unfold delete_counter_request in Hvendor. rewrite Hvendor.
    unfold raise_for_status. rewrite Hstatus. reflexivity. }
  split; [ exact E | ].
  unfold metrika_delete_counter, guarded, bind.
  cbn [GetCounterInput.counter_id]. rewrite E. reflexivity.
Qed.

Lemma delete_counter_555_witness :
  metrika_delete_counter
    {| GetCounterInput.counter_id := 555;
       GetCounterInput.response_format := MARKDOWN |}
    (answering unified_only no_content)
  = ("Counter 555 deleted successfully.",
     after_sending (answering unified_only no_content)
                   (delete_counter_request unified_only 555)).
Proof.
  exact (proj2 (delete_counter_on_no_content
                  (answering unified_only no_content) 555 MARKDOWN no_content
                  eq_refl eq_refl eq_refl)).
Defined.

(** ** Updating a text ad *)




(** ** Empty collections *)



(** ** Batch management *)

(** C1 at the failing input.  Given the ids 1 and 2 and a vendor list with a
    success for the first and one error for the second, suspending and
    resuming ads return the count alone, without any itemized line, whereas
    archiving ads, on the same list, appends the line of the error. *)
Theorem suspend_ads_drops_errors :
  fst (direct_suspend_ads {| ManageAdInput.ad_ids := [1; 2] |}
         (partial_failure "SuspendResults"))
  = "Successfully suspended 1 ad(s)." /\
  fst (direct_resume_ads {| ManageAdInput.ad_ids := [1; 2] |}
         (partial_failure "ResumeResults"))
  = "Successfully resumed 1 ad(s)." /\
  itemized_lines
    (fst (direct_suspend_ads {| ManageAdInput.ad_ids := [1; 2] |}
            (partial_failure "SuspendResults"))) = [] /\
  itemized_lines
    (fst (direct_archive_ads {| ManageAdInput.ad_ids := [1; 2] |}
            (partial_failure "ArchiveResults")))
  = ["- ID ?: Object not found"].
Proof. repeat split; vm_compute; reflexivity. Qed.

(** ** Splitting and joining *)

Lemma split_not_nil (c : ascii) (s : string) : PyStr.split c s <> [].
Proof.
  destruct s as [ | a r]; simpl; [ discriminate | ].
  destruct (Ascii.eqb a c); [ discriminate | ].
  destruct (PyStr.split c r); discriminate.
Qed.

Lemma split_absent (c : ascii) (s : string) :
  PyStr.contains c s = false -> PyStr.split c s = [s].
Proof.
  induction s as [ | a r IH]; simpl; intro E; [ reflexivity | ].
  apply orb_false_iff in E. destruct E as [Ea Er].
  rewrite Ea, (IH Er). reflexivity.
Qed.

Lemma split_at_separator (c : ascii) (a b : string) :
  PyStr.split c (a ++ String c b) = (PyStr.split c a ++ PyStr.split c b)%list.
Proof.
  induction a as [ | x a IH]; simpl.
  - rewrite Ascii.eqb_refl. reflexivity.
  - destruct (Ascii.eqb x c).
    + rewrite IH. reflexivity.
    + rewrite IH. destruct (PyStr.split c a) as [ | h t] eqn:E.
      * exfalso. exact (split_not_nil c a E).
      * reflexivity.
Qed.

Lemma join_cons (sep x y : string) (rest : list string) :
  PyStr.join sep (x :: y :: rest) = x ++ sep ++ PyStr.join sep (y :: rest).
Proof. reflexivity. Qed.

Lemma split_join (c : ascii) (parts : list string) :
  parts <> [] ->
  forallb (fun p => negb (PyStr.contains c p)) parts = true ->
  PyStr.split c (PyStr.join (String c EmptyString) parts) = parts.
Proof.
  induction parts as [ | x rest IH]; intros Hne Hall; [ contradiction | ].
  simpl in Hall. apply andb_true_iff in Hall. destruct Hall as [Hx Hrest].
  apply negb_true_iff in Hx.
  destruct rest as [ | y rest].
  - simpl. apply split_absent. exact Hx.
  - rewrite join_cons. change (String c EmptyString ++ PyStr.join (String c EmptyString) (y :: rest))
      with (String c (PyStr.join (String c EmptyString) (y :: rest))).
    rewrite split_at_separator, (split_absent _ _ Hx), IH; [ reflexivity | discriminate | exact Hrest ].
Qed.

Lemma contains_append (c : ascii) (a b : string) :
  PyStr.contains c (a ++ b) = PyStr.contains c a || PyStr.contains c b.
Proof.
  induction a as [ | x a IH]; simpl; [ reflexivity | ].
  rewrite IH. apply orb_assoc.
Qed.

Lemma digits_single_line (d : Decimal.uint) :
  PyStr.contains PyStr.newline (NilEmpty.string_of_uint d) = false.
Proof.
  induction d; simpl; try reflexivity; exact IHd.
Qed.

Lemma of_Z_single_line (n : Z) : PyStr.contains PyStr.newline (PyStr.of_Z n) = false.
Proof.
  unfold PyStr.of_Z, NilZero.string_of_int.
  destruct (Z.to_int n) as [d | d]; unfold NilZero.string_of_uint;
    destruct d; simpl; try reflexivity; apply digits_single_line.
Qed.

(** ** The operations that itemize errors *)

Lemma direct_request_answered (service method : string) (params : json)
    (use_v501 : bool) (w : world) (d : document) :
  PyStr.nonempty (_get_direct_token (api_client w)) = true ->
  vendor w (direct_call_request (api_client w) service method params use_v501)
  = Responds (ok_json d) ->
  direct_request service method params use_v501 w
  = (Returns d,
     after_sending w (direct_call_request (api_client w) service method params use_v501)).
Proof.
  intros Htoken Hvendor.
  unfold direct_request, bind at 1, get_client.
  rewrite Htoken.
  cbv beta iota delta [negb bind send].
  unfold direct_call_request in Hvendor |- *.
  destruct (PyStr.nonempty (client_login (api_client w)));
    cbn [List.app] in *; rewrite Hvendor; reflexivity.
Qed.

Lemma itemized_of_summary (s : string) :
  PyStr.contains PyStr.newline s = false ->
  PyStr.startswith "- " s = false ->
  forall errors : list string,
    forallb (fun e => negb (PyStr.contains PyStr.newline e)) errors = true ->
    itemized_lines (append_errors s errors) = map (fun e => "- " ++ e) errors.
Proof.
  intros Hline Hstart errors Herrors.
  unfold itemized_lines, append_errors.
  destruct errors as [ | e rest]; cbn [any_items].
  - rewrite (split_absent _ _ Hline). simpl. rewrite Hstart. reflexivity.
  - change (s ++ PyStr.nl ++ PyStr.nl ++ "Errors:" ++ PyStr.nl ++
            PyStr.join PyStr.nl (map (fun e0 => "- " ++ e0) (e :: rest)))
      with (s ++ String PyStr.newline
              (EmptyString ++ String PyStr.newline
                 ("Errors:" ++ String PyStr.newline
                    (PyStr.join PyStr.nl (map (fun e0 => "- " ++ e0) (e :: rest)))))).
    rewrite !split_at_separator.
    rewrite (split_absent _ _ Hline).
    unfold PyStr.nl. rewrite split_join.
    + change (PyStr.split PyStr.newline "Errors:") with ["Errors:"].
      change (PyStr.split PyStr.newline EmptyString) with [EmptyString].
      cbn [List.app filter]. rewrite Hstart.
      change (PyStr.startswith "- " EmptyString) with false.
      change (PyStr.startswith "- " "Errors:") with false.
      cbv iota.
      apply forallb_filter_id. rewrite forallb_forall. intros x Hx.
      apply in_map_iff in Hx. destruct Hx as [y [<- _]]. destruct y; reflexivity.
    + discriminate.
    + rewrite forallb_forall in Herrors |- *. intros x Hx.
      apply in_map_iff in Hx. destruct Hx as [y [<- Hy]].
      specialize (Herrors y Hy). exact Herrors.
Qed.

Lemma collect_errors_single_line (results : list ActionResult) :
  forallb single_line results = true ->
  forallb (fun e => negb (PyStr.contains PyStr.newline e)) (collect_errors results) = true.
Proof.
  induction results as [ | r rest IH]; simpl; intro H; [ reflexivity | ].
  apply andb_true_iff in H. destruct H as [Hr Hrest].
  unfold collect_errors in *. simpl. rewrite forallb_app, (IH Hrest), andb_true_r.
  unfold single_line in Hr. apply andb_true_iff in Hr. destruct Hr as [Hid Hmsgs].
  apply negb_true_iff in Hid.
  unfold id_error_lines. rewrite forallb_forall in Hmsgs |- *.
  intros x Hx. apply in_map_iff in Hx. destruct Hx as [e [<- He]].
  specialize (Hmsgs e He). apply negb_true_iff in Hmsgs.
  rewrite !contains_append, Hid, Hmsgs. reflexivity.
Qed.

Lemma errors_and_successes (results : list ActionResult) :
  forallb (fun r => succeeded r || failed_once r) results = true ->
  (List.length (collect_errors results) + List.length (filter succeeded results)
   = List.length results)%nat.
Proof.
  induction results as [ | r rest IH]; simpl; intro H; [ reflexivity | ].
  apply andb_true_iff in H. destruct H as [Hr Hrest]. specialize (IH Hrest).
  unfold collect_errors in *. simpl. rewrite length_app.
  unfold id_error_lines at 1. rewrite length_map.
  unfold succeeded at 1, failed_once in Hr. unfold succeeded at 1.
  destruct (get_truthy (Id r)); destruct (Errors r) as [ | e [ | e' es]];
    simpl in *; try discriminate Hr; lia.
Qed.

Lemma ids_without_errors_length (results : list ActionResult) :
  List.length (ids_without_errors results) = List.length (filter succeeded results).
Proof. unfold ids_without_errors. rewrite length_map. reflexivity. Qed.

Lemma ids_present_length (results : list ActionResult) :
  forallb (fun r => succeeded r || failed_once r) results = true ->
  List.length (ids_present results) = List.length (filter succeeded results).
Proof.
  intro H. unfold ids_present. rewrite length_map. f_equal.
  apply filter_ext_in. intros r Hr.
  rewrite forallb_forall in H. specialize (H r Hr).
  unfold succeeded, failed_once in *.
  destruct (get_truthy (Id r)); destruct (Errors r) as [ | e [ | e' es]];
    simpl in *; try reflexivity; discriminate H.
Qed.

Lemma summary_single_line (op : itemizing_operation) (k : Z) :
  PyStr.contains PyStr.newline (summary_of op k) = false /\
  PyStr.startswith "- " (summary_of op k) = false.
Proof.
  split; [ | destruct op; reflexivity ].
  unfold summary_of. rewrite !contains_append, of_Z_single_line.
  destruct op; reflexivity.
Qed.

(** The eight operations that build an [errors] list report partial
    failures in full: when every item of the vendor's list is a success or a
    failure with one error, the result is the summary with the number [K] of
    successes, followed by one itemized line per failure, [N - K] of them. *)
Lemma itemizing_operations_report
    (op : itemizing_operation) (ids : list Z) (w : world) (d : document) :
  PyStr.nonempty (_get_direct_token (api_client w)) = true ->
  vendor w (direct_call_request (api_client w) (service_of op) (method_of op)
              (selection_by_ids ids) false)
  = Responds (ok_json d) ->
  forallb (fun r => succeeded r || failed_once r) (get_results (results_key op) d) = true ->
  forallb single_line (get_results (results_key op) d) = true ->
  exists errors : list string,
    fst (run_itemizing op ids w)
    = append_errors
        (summary_of op (len (filter succeeded (get_results (results_key op) d))))
        errors /\
    itemized_lines (fst (run_itemizing op ids w)) = map (fun e => "- " ++ e) errors /\
    (List.length errors + List.length (filter succeeded (get_results (results_key op) d))
     = List.length (get_results (results_key op) d))%nat.
Proof.
  intros Htoken Hvendor Hitems Hlines.
  exists (collect_errors (get_results (results_key op) d)).
  assert (Hout : fst (run_itemizing op ids w)
                 = append_errors
                     (summary_of op (len (filter succeeded (get_results (results_key op) d))))
                     (collect_errors (get_results (results_key op) d))).
  { pose proof (ids_present_length _ Hitems) as Hp.
    pose proof (ids_without_errors_length (get_results (results_key op) d)) as Hw.
    destruct op; cbn [run_itemizing service_of method_of results_key] in *;
      unfold direct_suspend_campaigns, direct_resume_campaigns,
        direct_archive_campaigns, direct_unarchive_campaigns,
        direct_delete_campaigns, direct_archive_ads, direct_unarchive_ads,
        direct_delete_ads, guarded, bind;
      cbn [ManageCampaignInput.campaign_ids ManageAdInput.ad_ids];
      rewrite (direct_request_answered _ _ _ _ w d Htoken Hvendor);
      cbn [fst ret]; unfold len; rewrite ?Hp, ?Hw; reflexivity. }
  split; [ exact Hout | split ].
  - rewrite Hout. destruct (summary_single_line op
      (len (filter succeeded (get_results (results_key op) d)))) as [H1 H2].
    apply itemized_of_summary; [ exact H1 | exact H2 | ].
    apply collect_errors_single_line. exact Hlines.
  - apply errors_and_successes. exact Hitems.
Qed.

Example itemizing_operations_example :
  exists errors : list string,
    fst (run_itemizing DeleteCampaigns [1; 2] (partial_failure "DeleteResults"))
    = append_errors (summary_of DeleteCampaigns 1) errors /\
    itemized_lines
      (fst (run_itemizing DeleteCampaigns [1; 2] (partial_failure "DeleteResults")))
    = map (fun e => "- " ++ e) errors /\
    (List.length errors + 1 = 2)%nat.
Proof.
  exact (itemizing_operations_report DeleteCampaigns [1; 2]
           (partial_failure "DeleteResults")
           (results_document "DeleteResults"
              [item_ok 1; item_failed 8800 "Object not found"])
           eq_refl eq_refl eq_refl eq_refl).
Qed.

(** ** The statistics report *)


Lemma lstrip_keeps_absent (c : ascii) (s : string) :
  PyStr.contains c s = false -> PyStr.contains c (PyStr.lstrip s) = false.
Proof.
  induction s as [ | a r IH]; simpl; intro E; [ reflexivity | ].
  apply orb_false_iff in E. destruct E as [Ea Er].
  destruct (PyStr.isspace a); [ exact (IH Er) | ].
  simpl. rewrite Ea, Er. reflexivity.
Qed.

Lemma rstrip_keeps_absent (c : ascii) (s : string) :
  PyStr.contains c s = false -> PyStr.contains c (PyStr.rstrip s) = false.
Proof.
  induction s as [ | a r IH]; simpl; intro E; [ reflexivity | ].
  apply orb_false_iff in E. destruct E as [Ea Er]. specialize (IH Er).
  destruct (PyStr.rstrip r) as [ | b t].
  - destruct (PyStr.isspace a); simpl; [ reflexivity | ].
    rewrite Ea. reflexivity.
  - simpl in *. rewrite Ea. exact IH.
Qed.





(* ================================================================== *)
(** * Further properties of the client and the classifier *)
(* ================================================================== *)

(** ** One request per call *)

(** X1.  With a token, a call of the ads client issues exactly one request,
    whatever the vendor does with it: a POST to the base URL of the
    configuration followed by the service, with the bearer token, the fixed
    language and, only when a sub-account login is configured, the
    [Client-Login] header. *)
Theorem direct_request_sends_once
    (service method : string) (params : json) (use_v501 : bool) (w : world) :
  PyStr.nonempty (_get_direct_token (api_client w)) = true ->
  snd (direct_request service method params use_v501 w)
  = after_sending w (direct_call_request (api_client w) service method params use_v501).
Proof.
  intro Htoken.
  unfold direct_request, bind at 1, get_client. rewrite Htoken.
  cbv beta iota zeta delta [negb bind send].
  unfold direct_call_request.
  destruct (PyStr.nonempty (client_login (api_client w))); cbn [List.app];
    match goal with
    | |- context [vendor w ?req] => destruct (vendor w req) as [r | e]
    end; try reflexivity;
    unfold raise_for_status;
    destruct ((200 <=? status_code r) && (status_code r <? 300)); try reflexivity;
    unfold response_json; destruct (json_doc r); reflexivity.
Qed.

Lemma direct_request_sends_once_witness :
  sent (snd (direct_request "campaigns" "get" (JObj []) false
               (answering agency_sandbox rate_limited)))
  = [{| verb := "POST";
        url := "https://api-sandbox.direct.yandex.com/json/v5/campaigns";
        headers := [("Authorization", "Bearer direct-token");
                    ("Accept-Language", "ru");
                    ("Content-Type", "application/json");
                    ("Client-Login", "client-42")];
        query := None;
        payload := Some (JObj [("method", JStr "get"); ("params", JObj [])]);
        timeout := 30 |}].
Proof.
  exact (f_equal sent
           (direct_request_sends_once "campaigns" "get" (JObj []) false
              (answering agency_sandbox rate_limited) eq_refl)).
Defined.

(** What a call of the ads client comes to, by what the vendor does. *)
Lemma direct_request_outcome
    (service method : string) (params : json) (use_v501 : bool) (w : world) :
  PyStr.nonempty (_get_direct_token (api_client w)) = true ->
  direct_request service method params use_v501 w
  = (match vendor w (direct_call_request (api_client w) service method params use_v501) with
     | Responds r =>
         if is_success (status_code r) then
           match json_doc r with
           | Decoded d => Returns d
           | Undecodable msg => Raises (ValueError msg)
           end
         else Raises (HTTPStatusError r)
     | Fails e => Raises e
     end,
     after_sending w (direct_call_request (api_client w) service method params use_v501)).
Proof.
  intro Htoken.
  unfold direct_request, bind at 1, get_client. rewrite Htoken.
  cbv beta iota zeta delta [negb bind send].
  unfold direct_call_request, is_success.
  destruct (PyStr.nonempty (client_login (api_client w))); cbn [List.app];
    match goal with
    | |- context [vendor w ?req] => destruct (vendor w req) as [r | e]
    end; try reflexivity;
    unfold raise_for_status;
    destruct ((200 <=? status_code r) && (status_code r <? 300)); try reflexivity;
    unfold response_json; destruct (json_doc r); reflexivity.
Qed.

Lemma supported_method_cases (method : string) :
  In method ["GET"; "POST"; "PUT"; "DELETE"] ->
  method = "GET" \/ method = "POST" \/ method = "PUT" \/ method = "DELETE".
Proof.
  intros [E | [E | [E | [E | []]]]]; subst; tauto.
Qed.

(** What a call of the analytics client comes to, for a supported method. *)
Lemma metrika_request_outcome
    (endpoint method : string) (params data : option json) (w : world) :
  PyStr.nonempty (_get_metrika_token (api_client w)) = true ->
  In method ["GET"; "POST"; "PUT"; "DELETE"] ->
  metrika_request endpoint method params data w
  = (match vendor w (metrika_call_request (api_client w) endpoint method params data) with
     | Responds r =>
         if is_success (status_code r) then
           if status_code r =? 204 then
             Returns {| result := None; error := None; success := Some (SBool true) |}
           else
             match json_doc r with
             | Decoded d => Returns d
             | Undecodable msg => Raises (ValueError msg)
             end
         else Raises (HTTPStatusError r)
     | Fails e => Raises e
     end,
     after_sending w (metrika_call_request (api_client w) endpoint method params data)).
Proof.
  intros Htoken Hmethod.
  unfold metrika_request, bind at 1, get_client. rewrite Htoken.
  unfold metrika_call_request, is_success.
  destruct (supported_method_cases method Hmethod) as [-> | [-> | [-> | ->]]];
    cbv beta iota zeta delta [negb bind send String.eqb Ascii.eqb Bool.eqb orb];
    match goal with
    | |- context [vendor w ?req] => destruct (vendor w req) as [r | e]
    end; try reflexivity;
    unfold raise_for_status;
    destruct ((200 <=? status_code r) && (status_code r <? 300)); try reflexivity;
    cbv beta iota zeta delta [ret];
    destruct (status_code r =? 204); try reflexivity;
    unfold response_json; destruct (json_doc r); reflexivity.
Qed.

(** X2.  With a token and one of the four supported methods, a call of the
    analytics client issues exactly one request, whatever the vendor does
    with it: the chosen method on the analytics host followed by the
    endpoint, with the OAuth header and the query parameters; the JSON body
    is sent with POST and PUT only, so the body given to a GET or a DELETE
    is dropped. *)
Theorem metrika_request_sends_once
    (endpoint method : string) (params data : option json) (w : world) :
  PyStr.nonempty (_get_metrika_token (api_client w)) = true ->
  In method ["GET"; "POST"; "PUT"; "DELETE"] ->
  snd (metrika_request endpoint method params data w)
  = after_sending w (metrika_call_request (api_client w) endpoint method params data) /\
  (method = "GET" \/ method = "DELETE" ->
   payload (metrika_call_request (api_client w) endpoint method params data) = None) /\
  (method = "POST" \/ method = "PUT" ->
   payload (metrika_call_request (api_client w) endpoint method params data) = data).
Proof.
  intros Htoken Hmethod.
  rewrite (metrika_request_outcome _ _ _ _ w Htoken Hmethod).
  split; [ reflexivity | ].
  split; intros [-> | ->]; reflexivity.
Qed.

Lemma metrika_request_sends_once_witness :
  sent (snd (metrika_request "/management/v1/counters" "GET"
               (Some (JObj [("favorite", JStr "true")]))
               (Some (JObj [("ignored", JInt 1)]))
               (answering unified_only rate_limited)))
  = [{| verb := "GET";
        url := "https://api-metrika.yandex.net/management/v1/counters";
        headers := [("Authorization", "OAuth y0_token");
                    ("Content-Type", "application/json")];
        query := Some (JObj [("favorite", JStr "true")]);
        payload := None;
        timeout := 30 |}].
Proof.
  exact (f_equal sent
           (proj1 (metrika_request_sends_once "/management/v1/counters" "GET"
                     (Some (JObj [("favorite", JStr "true")]))
                     (Some (JObj [("ignored", JInt 1)]))
                     (answering unified_only rate_limited)
                     eq_refl (or_introl eq_refl)))).
Defined.

(** ** Failures of a call *)

(** X3.  When the vendor answers with a status outside 2xx, an operation
    built on either client returns what the classifier makes of the status
    error: the code that follows the call never runs, and the one request
    stays the only one. *)
Theorem http_error_is_classified (w : world) (r : http_response) :
  is_success (status_code r) = false ->
  (forall service method params use_v501 (rest : document -> M string),
     PyStr.nonempty (_get_direct_token (api_client w)) = true ->
     vendor w (direct_call_request (api_client w) service method params use_v501)
     = Responds r ->
     guarded (result <- direct_request service method params use_v501 ;; rest result) w
     = (_handle_api_error (HTTPStatusError r),
        after_sending w (direct_call_request (api_client w) service method params use_v501))) /\
  (forall endpoint method params data (rest : document -> M string),
     PyStr.nonempty (_get_metrika_token (api_client w)) = true ->
     In method ["GET"; "POST"; "PUT"; "DELETE"] ->
     vendor w (metrika_call_request (api_client w) endpoint method params data)
     = Responds r ->
     guarded (result <- metrika_request endpoint method params data ;; rest result) w
     = (_handle_api_error (HTTPStatusError r),
        after_sending w (metrika_call_request (api_client w) endpoint method params data))).
Proof.
  intro Hstatus. split.
  - intros service method params use_v501 rest Htoken Hvendor.
    unfold guarded, bind at 1.
    rewrite (direct_request_outcome _ _ _ _ w Htoken), Hvendor, Hstatus. reflexivity.
  - intros endpoint method params data rest Htoken Hmethod Hvendor.
    unfold guarded, bind at 1.
    rewrite (metrika_request_outcome _ _ _ _ w Htoken Hmethod), Hvendor, Hstatus.
    reflexivity.
Qed.

Lemma http_error_is_classified_witness :
  fst (direct_delete_campaigns {| ManageCampaignInput.campaign_ids := [1] |}
         (answering unified_only rate_limited))
  = "API Error: Rate limit exceeded. Wait before making more requests." /\
  fst (metrika_delete_counter
         {| GetCounterInput.counter_id := 555;
            GetCounterInput.response_format := MARKDOWN |}
         (answering unified_only rate_limited))
  = "API Error: Rate limit exceeded. Wait before making more requests.".
Proof.
  split.
  - exact (f_equal fst
             (proj1 (http_error_is_classified (answering unified_only rate_limited)
                       rate_limited eq_refl)
                "campaigns" "delete" _ false _ eq_refl eq_refl)).
  - exact (f_equal fst
             (proj2 (http_error_is_classified (answering unified_only rate_limited)
                       rate_limited eq_refl)
                _ "DELETE" None None _ eq_refl
                (or_intror (or_intror (or_intror (or_introl eq_refl)))) eq_refl)).
Defined.

(** X4.  When the transport fails with an exception [e], an operation built
    on either client returns what the classifier makes of [e]; for a
    timeout this is the sentence that the operation may still complete on
    the server.  The request counts as issued and is not repeated. *)
Theorem transport_failure_is_classified (w : world) (e : exn) :
  (forall service method params use_v501 (rest : document -> M string),
     PyStr.nonempty (_get_direct_token (api_client w)) = true ->
     vendor w (direct_call_request (api_client w) service method params use_v501)
     = Fails e ->
     guarded (result <- direct_request service method params use_v501 ;; rest result) w
     = (_handle_api_error e,
        after_sending w (direct_call_request (api_client w) service method params use_v501))) /\
  (forall endpoint method params data (rest : document -> M string),
     PyStr.nonempty (_get_metrika_token (api_client w)) = true ->
     In method ["GET"; "POST"; "PUT"; "DELETE"] ->
     vendor w (metrika_call_request (api_client w) endpoint method params data)
     = Fails e ->
     guarded (result <- metrika_request endpoint method params data ;; rest result) w
     = (_handle_api_error e,
        after_sending w (metrika_call_request (api_client w) endpoint method params data))) /\
  (e = TimeoutException ->
   _handle_api_error e
   = "Request timed out. The operation may still complete on the server.").
Proof.
  split; [ | split ].
  - intros service method params use_v501 rest Htoken Hvendor.
    unfold guarded, bind at 1.
    rewrite (direct_request_outcome _ _ _ _ w Htoken), Hvendor. reflexivity.
  - intros endpoint method params data rest Htoken Hmethod Hvendor.
    unfold guarded, bind at 1.
    rewrite (metrika_request_outcome _ _ _ _ w Htoken Hmethod), Hvendor. reflexivity.
  - intros ->. reflexivity.
Qed.

Lemma transport_failure_is_classified_witness :
  direct_suspend_ads {| ManageAdInput.ad_ids := [1; 2] |}
    (failing unified_only TimeoutException)
  = ("Request timed out. The operation may still complete on the server.",
     after_sending (failing unified_only TimeoutException)
       (direct_call_request unified_only "ads" "suspend" (selection_by_ids [1; 2]) false)).
Proof.
  exact (proj1 (transport_failure_is_classified
                  (failing unified_only TimeoutException) TimeoutException)
           "ads" "suspend" _ false _ eq_refl eq_refl).
Defined.

(** X5.  A 2xx answer whose body is not JSON makes [response.json()] raise
    a [ValueError], so an operation built on either client reports it as a
    configuration error carrying the decoder's message; for the analytics
    client this holds for every 2xx status but 204, whose body is not
    read. *)
Theorem undecodable_body_is_configuration_error
    (w : world) (r : http_response) (msg : string) :
  is_success (status_code r) = true ->
  json_doc r = Undecodable msg ->
  (forall service method params use_v501 (rest : document -> M string),
     PyStr.nonempty (_get_direct_token (api_client w)) = true ->
     vendor w (direct_call_request (api_client w) service method params use_v501)
     = Responds r ->
     guarded (result <- direct_request service method params use_v501 ;; rest result) w
     = ("Configuration Error: " ++ msg,
        after_sending w (direct_call_request (api_client w) service method params use_v501))) /\
  (forall endpoint method params data (rest : document -> M string),
     PyStr.nonempty (_get_metrika_token (api_client w)) = true ->
     In method ["GET"; "POST"; "PUT"; "DELETE"] ->
     vendor w (metrika_call_request (api_client w) endpoint method params data)
     = Responds r ->
     status_code r <> 204 ->
     guarded (result <- metrika_request endpoint method params data ;; rest result) w
     = ("Configuration Error: " ++ msg,
        after_sending w (metrika_call_request (api_client w) endpoint method params data))).
Proof.
  intros Hstatus Hbody. split.
  - intros service method params use_v501 rest Htoken Hvendor.
    unfold guarded, bind at 1.
    rewrite (direct_request_outcome _ _ _ _ w Htoken), Hvendor, Hstatus, Hbody.
    reflexivity.
  - intros endpoint method params data rest Htoken Hmethod Hvendor H204.
    unfold guarded, bind at 1.
    rewrite (metrika_request_outcome _ _ _ _ w Htoken Hmethod), Hvendor, Hstatus, Hbody.
    apply Z.eqb_neq in H204. rewrite H204. reflexivity.
Qed.

Lemma undecodable_body_witness :
  fst (metrika_delete_counter
         {| GetCounterInput.counter_id := 555;
            GetCounterInput.response_format := MARKDOWN |}
         (answering unified_only empty_ok))
  = "Configuration Error: Expecting value: line 1 column 1 (char 0)".
Proof.
  assert (H204 : status_code empty_ok <> 204) by discriminate.
  exact (f_equal fst
           (proj2 (undecodable_body_is_configuration_error
                     (answering unified_only empty_ok) empty_ok _ eq_refl eq_refl)
              _ "DELETE" None None _ eq_refl
              (or_intror (or_intror (or_intror (or_introl eq_refl)))) eq_refl H204)).
Defined.

(** ** The vendor's own message *)







(* ================================================================== *)
(** * Further properties of the statistics report *)
(* ================================================================== *)

Lemma statistics_outcome (params : DirectReportInput.t) (w : world)
    (r : http_response) :
  PyStr.nonempty (_get_direct_token (api_client w)) = true ->
  vendor w (report_request (api_client w) params) = Responds r ->
  direct_get_statistics params w
  = (if status_code r =? 200 then Some (statistics_of_body params (text r))
     else if (status_code r =? 201) || (status_code r =? 202)
          then Some "Report is being generated. Please try again in a few seconds."
          else if is_success (status_code r) then None
               else Some (_handle_api_error (HTTPStatusError r)),
     after_sending w (report_request (api_client w) params)).
Proof.
  intros Htoken Hvendor.
  unfold direct_get_statistics, bind at 1, get_client.
  rewrite Htoken. cbv beta iota delta [negb bind send].
  unfold report_request in Hvendor. rewrite Hvendor. cbv beta iota zeta.
  destruct (status_code r =? 200); [ reflexivity | ].
  destruct ((status_code r =? 201) || (status_code r =? 202)); [ reflexivity | ].
  unfold raise_for_status, is_success.
  destruct ((200 <=? status_code r) && (status_code r <? 300)); reflexivity.
Qed.

(** X7.  For an answer other than 200 the statistics report does not parse
    the body.  201 and 202 give the sentence that the report is being
    generated; any other 2xx status passes [raise_for_status] and the
    operation falls off its end, returning [None] rather than a string; a
    status outside 2xx gives the classifier's string.  In each case the one
    request is the only one. *)
Theorem statistics_other_statuses
    (params : DirectReportInput.t) (w : world) (r : http_response) :
  PyStr.nonempty (_get_direct_token (api_client w)) = true ->
  vendor w (report_request (api_client w) params) = Responds r ->
  snd (direct_get_statistics params w)
  = after_sending w (report_request (api_client w) params) /\
  (status_code r = 201 \/ status_code r = 202 ->
   fst (direct_get_statistics params w)
   = Some "Report is being generated. Please try again in a few seconds.") /\
  (is_success (status_code r) = true ->
   ~ In (status_code r) [200; 201; 202] ->
   fst (direct_get_statistics params w) = None) /\
  (is_success (status_code r) = false ->
   fst (direct_get_statistics params w) = Some (_handle_api_error (HTTPStatusError r))).
Proof.
  intros Htoken Hvendor.
  rewrite (statistics_outcome params w r Htoken Hvendor). cbn [fst snd].
  split; [ reflexivity | ]. split; [ | split ].
  - intros [E | E]; rewrite E; reflexivity.
  - intros Hok Hout.
    assert (H200 : (status_code r =? 200) = false)
      by (apply Z.eqb_neq; intro E; apply Hout; rewrite E; simpl; tauto).
    assert (H201 : (status_code r =? 201) = false)
      by (apply Z.eqb_neq; intro E; apply Hout; rewrite E; simpl; tauto).
    assert (H202 : (status_code r =? 202) = false)
      by (apply Z.eqb_neq; intro E; apply Hout; rewrite E; simpl; tauto).
    rewrite H200, H201, H202, Hok. reflexivity.
  - intro Hbad. unfold is_success in Hbad.
    assert (H200 : (status_code r =? 200) = false) by
      (apply Z.eqb_neq; intro E; rewrite E in Hbad; discriminate Hbad).
    assert (H201 : (status_code r =? 201) = false) by
      (apply Z.eqb_neq; intro E; rewrite E in Hbad; discriminate Hbad).
    assert (H202 : (status_code r =? 202) = false) by
      (apply Z.eqb_neq; intro E; rewrite E in Hbad; discriminate Hbad).
    rewrite H200, H201, H202. unfold is_success. rewrite Hbad. reflexivity.
Qed.

Lemma statistics_other_statuses_witness :
  fst (direct_get_statistics weekly_report (answering unified_only (report_status 202)))
  = Some "Report is being generated. Please try again in a few seconds." /\
  fst (direct_get_statistics weekly_report (answering unified_only (report_status 204)))
  = None /\
  fst (direct_get_statistics weekly_report (answering unified_only (report_status 500)))
  = Some "API Error: Server error. Try again later.".
Proof.
  assert (Hout : ~ In (status_code (report_status 204)) [200; 201; 202])
    by (simpl; intros [E | [E | [E | []]]]; discriminate E).
  split; [ | split ].
  - exact (proj1 (proj2 (statistics_other_statuses weekly_report
                           (answering unified_only (report_status 202))
                           (report_status 202) eq_refl eq_refl))
             (or_intror eq_refl)).
  - exact (proj1 (proj2 (proj2 (statistics_other_statuses weekly_report
                                  (answering unified_only (report_status 204))
                                  (report_status 204) eq_refl eq_refl)))
             eq_refl Hout).
  - exact (proj2 (proj2 (proj2 (statistics_other_statuses weekly_report
                                  (answering unified_only (report_status 500))
                                  (report_status 500) eq_refl eq_refl)))
             eq_refl).
Defined.






(* ================================================================== *)
(** * Further properties of the analytics reports *)
(* ================================================================== *)

Lemma totals_lines_nth {num : Type} {F : Formatting num}
    (metrics : list string) (totals : list num) :
  forall (k i : nat) (total : num),
    nth_error totals i = Some total ->
    nth_error (totals_lines metrics k totals) i
    = Some ("- **" ++ metric_name_at metrics (k + i) ++ "**: " ++
            format_grouped_2f total).
Proof.
  induction totals as [ | t rest IH]; intros k i total Hi.
  - destruct i; discriminate Hi.
  - destruct i as [ | i].
    + simpl in Hi. injection Hi as ->. simpl. rewrite Nat.add_0_r. reflexivity.
    + simpl in Hi. simpl. rewrite (IH (S k) i total Hi).
      replace (S k + i)%nat with (k + S i)%nat by lia. reflexivity.
Qed.

Lemma totals_lines_length {num : Type} {F : Formatting num}
    (metrics : list string) (totals : list num) (k : nat) :
  List.length (totals_lines metrics k totals) = List.length totals.
Proof.
  revert k. induction totals as [ | t rest IH]; intro k; simpl;
    [ reflexivity | rewrite IH; reflexivity ].
Qed.

(** X10.  The totals of the tabular report are named by position: there is
    one line per total, and the line of the total at index [i] carries the
    metric that the query lists at index [i], or ["Metric <i+1>"] when the
    query lists fewer metrics than there are totals. *)
Theorem totals_are_named_by_position {num : Type} {F : Formatting num}
    (metrics : list string) (totals : list num) (i : nat) (total : num) :
  nth_error totals i = Some total ->
  List.length (totals_lines metrics 0 totals) = List.length totals /\
  nth_error (totals_lines metrics 0 totals) i
  = Some ("- **" ++ metric_name_at metrics i ++ "**: " ++ format_grouped_2f total) /\
  (forall m, nth_error metrics i = Some m -> metric_name_at metrics i = m) /\
  ((List.length metrics <= i)%nat ->
   metric_name_at metrics i = "Metric " ++ PyStr.of_Z (Z.of_nat i + 1)).
Proof.
  intro Hi. split; [ apply totals_lines_length | ].
  split; [ exact (totals_lines_nth metrics totals 0 i total Hi) | ].
  split.
  - intros m Hm. unfold metric_name_at. rewrite Hm. reflexivity.
  - intro Hshort. unfold metric_name_at.
    apply nth_error_None in Hshort. rewrite Hshort. reflexivity.
Qed.

Lemma totals_are_named_by_position_witness :
  @totals_lines Z plain_integers ["ym:s:visits"; "ym:s:users"] 0 [120; 80; 7]
  = ["- **ym:s:visits**: 120.00"; "- **ym:s:users**: 80.00"; "- **Metric 3**: 7.00"] /\
  nth_error (@totals_lines Z plain_integers ["ym:s:visits"; "ym:s:users"] 0 [120; 80; 7]) 2
  = Some ("- **" ++ metric_name_at ["ym:s:visits"; "ym:s:users"] 2 ++ "**: " ++
          @format_grouped_2f Z plain_integers 7).
Proof.
  split; [ reflexivity | ].
  exact (proj1 (proj2 (@totals_are_named_by_position Z plain_integers
                         ["ym:s:visits"; "ym:s:users"] [120; 80; 7] 2 7 eq_refl))).
Defined.






(* ================================================================== *)
(** * Further properties of the operations *)
(* ================================================================== *)

(** ** Updating a text ad *)

Lemma optional_entry_keys (key : string) (field : option string) :
  map fst (optional_entry key field) = if given field then [key] else [].
Proof.
  unfold optional_entry, given.
  destruct field as [s | ]; [ destruct (PyStr.nonempty s) | ]; reflexivity.
Qed.

Lemma optional_entry_value (key : string) (s : string) :
  PyStr.nonempty s = true -> optional_entry key (Some s) = [(key, JStr s)].
Proof. intro E. unfold optional_entry. rewrite E. reflexivity. Qed.

(** X12.  With a token and at least one field to update, the text-ad update
    issues one request whose ["TextAd"] object has exactly the fields that
    were given: a key is present if and only if its field is given and not
    empty, and then carries the field's text; absent and empty fields are
    left out rather than sent as null. *)
Theorem update_ad_sends_given_fields (params : UpdateTextAdInput.t) (w : world) :
  PyStr.nonempty (_get_direct_token (api_client w)) = true ->
  text_ad_update_of params <> [] ->
  snd (direct_update_ad params w) = after_sending w (ad_update_request (api_client w) params) /\
  (forall key field,
     In (key, field) (optional_fields params) ->
     (In key (map fst (text_ad_update_of params)) <-> given field = true)) /\
  (forall key field s,
     In (key, field) (optional_fields params) ->
     field = Some s -> PyStr.nonempty s = true ->
     In (key, JStr s) (text_ad_update_of params)).
Proof.
  intros Htoken Hsome. split; [ | split ].
  - unfold direct_update_ad, guarded.
    change (optional_entry "Title" (UpdateTextAdInput.title params) ++
            optional_entry "Title2" (UpdateTextAdInput.title2 params) ++
            optional_entry "Text" (UpdateTextAdInput.text params) ++
            optional_entry "Href" (UpdateTextAdInput.href params))%list
      with (text_ad_update_of params).
    destruct (text_ad_update_of params) as [ | f fs] eqn:E; [ contradiction | ].
    cbn [any_items negb]. unfold bind at 1.
    rewrite (direct_request_outcome _ _ _ _ w Htoken).
    unfold ad_update_request. rewrite E.
    destruct (vendor w _) as [r | e]; [ | reflexivity ].
    destruct (is_success (status_code r)); [ | reflexivity ].
    destruct (json_doc r) as [d | msg]; [ | reflexivity ].
    destruct (any_items (flat_map update_issue_lines (get_results "UpdateResults" d)));
      reflexivity.
  - intros key field Hin.
    unfold text_ad_update_of. rewrite !map_app, !optional_entry_keys.
    unfold optional_fields in Hin.
    destruct Hin as [E | [E | [E | [E | []]]]]; injection E as <- <-;
      destruct (given (UpdateTextAdInput.title params)),
               (given (UpdateTextAdInput.title2 params)),
               (given (UpdateTextAdInput.text params)),
               (given (UpdateTextAdInput.href params));
      cbn [List.app In]; split; intro H;
      try reflexivity; try discriminate H; try tauto;
      repeat (destruct H as [H | H]; try discriminate H; try contradiction).
  - intros key field s Hin -> Hs.
    unfold text_ad_update_of. unfold optional_fields in Hin.
    destruct Hin as [E | [E | [E | [E | []]]]]; injection E as <- E; rewrite E;
      rewrite (optional_entry_value _ s Hs); rewrite ?in_app_iff; simpl; tauto.
Qed.

Lemma update_ad_sends_given_fields_witness :
  sent (snd (direct_update_ad retitle (answering unified_only rate_limited)))
  = [direct_call_request unified_only "ads" "update"
       (JObj [("Ads",
               JArr [JObj [("Id", JInt 42);
                           ("TextAd", JObj [("Title2", JStr "Free delivery")])]])])
       false].
Proof.
  assert (Hsome : text_ad_update_of retitle <> []) by discriminate.
  exact (f_equal sent
           (proj1 (update_ad_sends_given_fields retitle
                     (answering unified_only rate_limited) eq_refl Hsome))).
Defined.

Lemma no_issues_iff_clean (results : list ActionResult) :
  flat_map update_issue_lines results = [] <-> forallb clean results = true.
Proof.
  induction results as [ | r rest IH]; simpl; [ tauto | ].
  unfold update_issue_lines at 1, clean at 1.
  destruct (Errors r) as [ | e es], (Warnings r) as [ | x xs]; simpl;
    try (split; intro H; discriminate H).
  exact IH.
Qed.

Lemma issue_lines_length (results : list ActionResult) :
  List.length (flat_map update_issue_lines results)
  = list_sum (map (fun r => (List.length (Errors r) + List.length (Warnings r))%nat)
                  results).
Proof.
  induction results as [ | r rest IH]; [ reflexivity | ].
  cbn [flat_map map list_sum fold_right].
  rewrite length_app, IH. unfold update_issue_lines.
  rewrite length_app, !length_map. reflexivity.
Qed.

(** X13.  The update of a text ad reports success only for a clean answer.
    With a token, a field to update and a 200 answer, the result is the
    success sentence exactly when no per-item result carries an error or a
    warning; otherwise it is ["Update completed with issues:"] followed by
    one itemized line per error and per warning, so that a change the
    vendor applied with a warning is not announced as a success. *)
Theorem update_ad_reports_issues
    (params : UpdateTextAdInput.t) (w : world) (d : document) :
  PyStr.nonempty (_get_direct_token (api_client w)) = true ->
  text_ad_update_of params <> [] ->
  vendor w (ad_update_request (api_client w) params) = Responds (ok_json d) ->
  (forallb clean (get_results "UpdateResults" d) = true ->
   fst (direct_update_ad params w)
   = "Ad " ++ PyStr.of_Z (UpdateTextAdInput.ad_id params) ++
     " updated successfully. Note: Submit for moderation using direct_moderate_ads.") /\
  (forallb clean (get_results "UpdateResults" d) = false ->
   exists issues : list string,
     fst (direct_update_ad params w)
     = "Update completed with issues:" ++ PyStr.nl ++
       PyStr.join PyStr.nl (map (fun e => "- " ++ e) issues) /\
     issues <> [] /\
     List.length issues
     = list_sum (map (fun r => (List.length (Errors r) + List.length (Warnings r))%nat)
                     (get_results "UpdateResults" d))).
Proof.
  intros Htoken Hsome Hvendor.
  assert (Hrun : fst (direct_update_ad params w)
                 = if any_items (flat_map update_issue_lines (get_results "UpdateResults" d))
                   then "Update completed with issues:" ++ PyStr.nl ++
                        PyStr.join PyStr.nl
                          (map (fun e => "- " ++ e)
                               (flat_map update_issue_lines (get_results "UpdateResults" d)))
                   else "Ad " ++ PyStr.of_Z (UpdateTextAdInput.ad_id params) ++
                        " updated successfully. Note: Submit for moderation using direct_moderate_ads.").
  { unfold direct_update_ad, guarded.
    change (optional_entry "Title" (UpdateTextAdInput.title params) ++
            optional_entry "Title2" (UpdateTextAdInput.title2 params) ++
            optional_entry "Text" (UpdateTextAdInput.text params) ++
            optional_entry "Href" (UpdateTextAdInput.href params))%list
      with (text_ad_update_of params).
    unfold ad_update_request in Hvendor.
    destruct (text_ad_update_of params) as [ | f fs] eqn:E; [ contradiction | ].
    cbn [any_items negb]. unfold bind at 1.
    rewrite (direct_request_outcome _ _ _ _ w Htoken), Hvendor.
    cbn [ok_json status_code json_doc is_success Z.leb Z.ltb Z.compare Pos.compare
         Pos.compare_cont andb].
    destruct (any_items (flat_map update_issue_lines (get_results "UpdateResults" d)));
      reflexivity. }
  split.
  - intro Hclean. rewrite Hrun.
    apply no_issues_iff_clean in Hclean. rewrite Hclean. reflexivity.
  - intro Hdirty.
    exists (flat_map update_issue_lines (get_results "UpdateResults" d)).
    assert (Hne : flat_map update_issue_lines (get_results "UpdateResults" d) <> []).
    { intro E. apply no_issues_iff_clean in E. rewrite E in Hdirty. discriminate Hdirty. }
    split; [ | split ].
    + rewrite Hrun.
      destruct (flat_map update_issue_lines (get_results "UpdateResults" d));
        [ contradiction | reflexivity ].
    + exact Hne.
    + apply issue_lines_length.
Qed.

Lemma update_ad_reports_issues_witness :
  exists issues : list string,
    fst (direct_update_ad retitle
           (answering unified_only
              (ok_json (results_document "UpdateResults"
                          [item_warned 42 "Title2 was shortened"]))))
    = "Update completed with issues:" ++ PyStr.nl ++
      PyStr.join PyStr.nl (map (fun e => "- " ++ e) issues) /\
    issues <> [] /\
    List.length issues = 1%nat.
Proof.
  assert (Hsome : text_ad_update_of retitle <> []) by discriminate.
  exact (proj2 (update_ad_reports_issues retitle
                  (answering unified_only
                     (ok_json (results_document "UpdateResults"
                                 [item_warned 42 "Title2 was shortened"])))
                  (results_document "UpdateResults"
                     [item_warned 42 "Title2 was shortened"])
                  eq_refl Hsome eq_refl) eq_refl).
Defined.

(** ** A 200 answer without a result list *)

Lemma get_results_missing (key : string) (d : document) :
  result d = None -> get_results key d = [].
Proof. intro E. unfold get_results. rewrite E. reflexivity. Qed.

Ltac run_batch Htoken Hvendor Hresult :=
  unfold guarded, bind;
  cbn [ManageCampaignInput.campaign_ids ManageAdInput.ad_ids
       ManageKeywordInput.keyword_ids];
  rewrite (direct_request_outcome _ _ _ _ _ Htoken), Hvendor;
  cbn [ok_json status_code json_doc is_success Z.leb Z.ltb Z.compare Pos.compare
       Pos.compare_cont andb];
  rewrite (get_results_missing _ _ Hresult); reflexivity.

(** X14.  The batch operations read only the result list of a 200 answer.
    When the document has no ["result"], as when the vendor sends its error
    object with status 200, each of them reports zero successes and shows
    no error: the vendor's message is not passed on. *)
Theorem answer_without_results (w : world) (d : document) (ids : list Z) :
  PyStr.nonempty (_get_direct_token (api_client w)) = true ->
  (forall req, vendor w req = Responds (ok_json d)) ->
  result d = None ->
  (forall op, fst (run_itemizing op ids w) = summary_of op 0) /\
  fst (direct_suspend_ads {| ManageAdInput.ad_ids := ids |} w)
  = "Successfully suspended 0 ad(s)." /\
  fst (direct_resume_ads {| ManageAdInput.ad_ids := ids |} w)
  = "Successfully resumed 0 ad(s)." /\
  fst (direct_moderate_ads {| ManageAdInput.ad_ids := ids |} w)
  = "Successfully submitted 0 ad(s) for moderation." /\
  fst (direct_delete_keywords {| ManageKeywordInput.keyword_ids := ids |} w)
  = "Successfully deleted 0 keyword(s).".
Proof.
  intros Htoken Hvendor Hresult.
  split; [ | repeat split ].
  - intro op. destruct op; cbn [run_itemizing];
      unfold direct_suspend_campaigns, direct_resume_campaigns,
        direct_archive_campaigns, direct_unarchive_campaigns,
        direct_delete_campaigns, direct_archive_ads, direct_unarchive_ads,
        direct_delete_ads;
      run_batch Htoken Hvendor Hresult.
  - unfold direct_suspend_ads. run_batch Htoken Hvendor Hresult.
  - unfold direct_resume_ads. run_batch Htoken Hvendor Hresult.
  - unfold direct_moderate_ads. run_batch Htoken Hvendor Hresult.
  - unfold direct_delete_keywords. run_batch Htoken Hvendor Hresult.
Qed.

Lemma answer_without_results_witness :
  fst (direct_delete_campaigns {| ManageCampaignInput.campaign_ids := [1; 2] |}
         (answering unified_only (ok_json error_document)))
  = "Successfully deleted 0 campaign(s).".
Proof.
  exact (proj1 (answer_without_results
                  (answering unified_only (ok_json error_document))
                  error_document [1; 2] eq_refl (fun _ => eq_refl) eq_refl)
           DeleteCampaigns).
Defined.

(** ** Creating an ad group or a text ad *)

(** X15.  The two creations look at the first per-item result only.  With a
    token and a 200 answer, when the first result carries a true id the
    operation announces that id, whatever else the list holds; otherwise,
    also when the list is empty, it returns the failure sentence followed
    by one itemized line per error of the whole list, which may be none. *)
Theorem creation_reports_first_result (w : world) (d : document) :
  PyStr.nonempty (_get_direct_token (api_client w)) = true ->
  (forall params,
     vendor w (create_adgroup_request (api_client w) params) = Responds (ok_json d) ->
     fst (direct_create_adgroup params w)
     = match first_id (get_results "AddResults" d) with
       | Some id => "Ad group created successfully. ID: " ++ py_str id
       | None =>
           "Failed to create ad group:" ++ PyStr.nl ++
           PyStr.join PyStr.nl
             (map (fun e => "- " ++ e) (error_messages_of (get_results "AddResults" d)))
       end) /\
  (forall params,
     vendor w (create_text_ad_request (api_client w) params) = Responds (ok_json d) ->
     fst (direct_create_text_ad params w)
     = match first_id (get_results "AddResults" d) with
       | Some id =>
           "Ad created successfully. ID: " ++ py_str id ++ PyStr.nl ++ PyStr.nl ++
           "Note: Submit for moderation using direct_moderate_ads."
       | None =>
           "Failed to create ad:" ++ PyStr.nl ++
           PyStr.join PyStr.nl
             (map (fun e => "- " ++ e) (error_messages_of (get_results "AddResults" d)))
       end) /\
  (forall (r : ActionResult) (rest : list ActionResult) (id : scalar),
     Id r = Some id -> truthy id = true -> first_id (r :: rest) = Some id) /\
  first_id [] = None /\
  error_messages_of [] = [].
Proof.
  intro Htoken. split; [ | split; [ | split; [ | split; reflexivity ] ] ].
  - intros params Hvendor.
    unfold direct_create_adgroup, guarded, bind at 1.
    unfold create_adgroup_request in Hvendor.
    rewrite (direct_request_outcome _ _ _ _ w Htoken), Hvendor.
    cbn [ok_json status_code json_doc is_success Z.leb Z.ltb Z.compare Pos.compare
         Pos.compare_cont andb].
    destruct (first_id (get_results "AddResults" d)); reflexivity.
  - intros params Hvendor.
    unfold direct_create_text_ad, guarded, bind at 1.
    unfold create_text_ad_request in Hvendor.
    rewrite (direct_request_outcome _ _ _ _ w Htoken), Hvendor.
    cbn [ok_json status_code json_doc is_success Z.leb Z.ltb Z.compare Pos.compare
         Pos.compare_cont andb].
    destruct (first_id (get_results "AddResults" d)); reflexivity.
  - intros r rest id Hid Htrue. unfold first_id, get_truthy.
    rewrite Hid, Htrue. reflexivity.
Qed.

Lemma creation_reports_first_result_witness :
  fst (direct_create_adgroup moscow_group
         (answering unified_only
            (ok_json (results_document "AddResults"
                        [item_ok 501; item_failed 5005 "Unused"]))))
  = "Ad group created successfully. ID: 501" /\
  fst (direct_create_adgroup moscow_group
         (answering unified_only (ok_json (results_document "AddResults" []))))
  = "Failed to create ad group:" ++ PyStr.nl.
Proof.
  split.
  - exact (proj1 (creation_reports_first_result
                    (answering unified_only
                       (ok_json (results_document "AddResults"
                                   [item_ok 501; item_failed 5005 "Unused"])))
                    (results_document "AddResults"
                       [item_ok 501; item_failed 5005 "Unused"]) eq_refl)
             moscow_group eq_refl).
  - exact (proj1 (creation_reports_first_result
                    (answering unified_only
                       (ok_json (results_document "AddResults" [])))
                    (results_document "AddResults" []) eq_refl)
             moscow_group eq_refl).
Defined.

(** ** Moderation and the deletion of keywords *)

Lemma report_of_results (summary : Z -> string) (results : list ActionResult) :
  (forall k, PyStr.contains PyStr.newline (summary k) = false) ->
  (forall k, PyStr.startswith "- " (summary k) = false) ->
  well_formed_results results = true ->
  reports_in_full summary results
    (append_errors (summary (len (ids_without_errors results)))
                   (collect_errors results)).
Proof.
  intros Hline Hstart Hwf.
  unfold well_formed_results in Hwf. apply andb_true_iff in Hwf.
  destruct Hwf as [Hitems Hlines].
  exists (collect_errors results).
  assert (Hk : len (ids_without_errors results) = len (filter succeeded results))
    by (unfold len; rewrite ids_without_errors_length; reflexivity).
  rewrite Hk. split; [ reflexivity | split ].
  - apply itemized_of_summary; [ apply Hline | apply Hstart | ].
    apply collect_errors_single_line. exact Hlines.
  - apply errors_and_successes. exact Hitems.
Qed.

(** X16.  Submitting ads for moderation and deleting keywords report
    partial failures in full, like the operations on campaigns: with a
    token and a 200 answer whose list has, for each item, a success or a
    failure with one error, the result is the summary with the number [K]
    of successes followed by exactly [N - K] itemized error lines. *)
Theorem moderation_and_keyword_deletion_itemize
    (w : world) (d : document) (ids : list Z) :
  PyStr.nonempty (_get_direct_token (api_client w)) = true ->
  (vendor w (direct_call_request (api_client w) "ads" "moderate"
               (selection_by_ids ids) false) = Responds (ok_json d) ->
   well_formed_results (get_results "ModerateResults" d) = true ->
   reports_in_full moderation_summary (get_results "ModerateResults" d)
     (fst (direct_moderate_ads {| ManageAdInput.ad_ids := ids |} w))) /\
  (vendor w (direct_call_request (api_client w) "keywords" "delete"
               (selection_by_ids ids) false) = Responds (ok_json d) ->
   well_formed_results (get_results "DeleteResults" d) = true ->
   reports_in_full keyword_deletion_summary (get_results "DeleteResults" d)
     (fst (direct_delete_keywords {| ManageKeywordInput.keyword_ids := ids |} w))).
Proof.
  intro Htoken. split; intros Hvendor Hwf.
  - assert (E : fst (direct_moderate_ads {| ManageAdInput.ad_ids := ids |} w)
                = append_errors
                    (moderation_summary
                       (len (ids_without_errors (get_results "ModerateResults" d))))
                    (collect_errors (get_results "ModerateResults" d))).
    { unfold direct_moderate_ads, guarded, bind. cbn [ManageAdInput.ad_ids].
      rewrite (direct_request_outcome _ _ _ _ w Htoken), Hvendor. reflexivity. }
    rewrite E. apply report_of_results; [ | | exact Hwf ]; intro k.
    + unfold moderation_summary. rewrite !contains_append, of_Z_single_line. reflexivity.
    + reflexivity.
  - assert (E : fst (direct_delete_keywords {| ManageKeywordInput.keyword_ids := ids |} w)
                = append_errors
                    (keyword_deletion_summary
                       (len (ids_without_errors (get_results "DeleteResults" d))))
                    (collect_errors (get_results "DeleteResults" d))).
    { unfold direct_delete_keywords, guarded, bind.
      cbn [ManageKeywordInput.keyword_ids].
      rewrite (direct_request_outcome _ _ _ _ w Htoken), Hvendor. reflexivity. }
    rewrite E. apply report_of_results; [ | | exact Hwf ]; intro k.
    + unfold keyword_deletion_summary.
      rewrite !contains_append, of_Z_single_line. reflexivity.
    + reflexivity.
Qed.

Lemma moderation_itemizes_witness :
  reports_in_full moderation_summary [item_ok 1; item_failed 8800 "Object not found"]
    (fst (direct_moderate_ads {| ManageAdInput.ad_ids := [1; 2] |}
            (partial_failure "ModerateResults"))) /\
  fst (direct_moderate_ads {| ManageAdInput.ad_ids := [1; 2] |}
         (partial_failure "ModerateResults"))
  = "Successfully submitted 1 ad(s) for moderation." ++ PyStr.nl ++ PyStr.nl ++
    "Errors:" ++ PyStr.nl ++ "- ID ?: Object not found".
Proof.
  split; [ | reflexivity ].
  exact (proj1 (moderation_and_keyword_deletion_itemize
                  (partial_failure "ModerateResults")
                  (results_document "ModerateResults"
                     [item_ok 1; item_failed 8800 "Object not found"])
                  [1; 2] eq_refl) eq_refl eq_refl).
Defined.

(** ** Updating an ad group *)

(** X17.  The update of an ad group has no guard for an empty update: with
    a token it always issues its one request, and when no field is given
    the request carries the id alone.  The negative keywords are sent
    whenever they are given, an empty list as an empty ["Items"] list,
    whereas an empty name, an empty list of regions and empty tracking
    parameters are left out like absent ones. *)
Theorem update_adgroup_always_sends (params : UpdateAdGroupInput.t) (w : world) :
  PyStr.nonempty (_get_direct_token (api_client w)) = true ->
  snd (direct_update_adgroup params w)
  = after_sending w (adgroup_update_request (api_client w) params) /\
  (given (UpdateAdGroupInput.name params) = false ->
   UpdateAdGroupInput.region_ids params = None \/
   UpdateAdGroupInput.region_ids params = Some [] ->
   given (UpdateAdGroupInput.tracking_params params) = false ->
   adgroup_update_fields params
   = ("Id", JInt (UpdateAdGroupInput.adgroup_id params))
       :: match UpdateAdGroupInput.negative_keywords params with
          | Some items => [("NegativeKeywords", JObj [("Items", JArr (map JStr items))])]
          | None => []
          end).
Proof.
  intro Htoken. split.
  - unfold direct_update_adgroup, guarded, bind at 1.
    rewrite (direct_request_outcome _ _ _ _ w Htoken).
    unfold adgroup_update_request.
    destruct (vendor w _) as [r | e]; [ | reflexivity ].
    destruct (is_success (status_code r)); [ | reflexivity ].
    destruct (json_doc r) as [d | msg]; [ | reflexivity ].
    destruct (any_items (flat_map update_issue_lines (get_results "UpdateResults" d)));
      reflexivity.
  - intros Hname Hregions Htracking.
    unfold adgroup_update_fields.
    assert (En : optional_entry "Name" (UpdateAdGroupInput.name params) = []).
    { unfold optional_entry, given in *.
      destruct (UpdateAdGroupInput.name params) as [s | ]; [ | reflexivity ].
      rewrite Hname. reflexivity. }
    assert (Et : optional_entry "TrackingParams"
                   (UpdateAdGroupInput.tracking_params params) = []).
    { unfold optional_entry, given in *.
      destruct (UpdateAdGroupInput.tracking_params params) as [s | ]; [ | reflexivity ].
      rewrite Htracking. reflexivity. }
    rewrite En, Et.
    destruct Hregions as [-> | ->];
      destruct (UpdateAdGroupInput.negative_keywords params); reflexivity.
Qed.

Lemma update_adgroup_always_sends_witness :
  sent (snd (direct_update_adgroup untouched_group (answering unified_only rate_limited)))
  = [direct_call_request unified_only "adgroups" "update"
       (JObj [("AdGroups", JArr [JObj [("Id", JInt 9)]])]) false] /\
  adgroup_update_fields cleared_keywords
  = [("Id", JInt 9); ("NegativeKeywords", JObj [("Items", JArr [])])].
Proof.
  split.
  - exact (f_equal sent
             (proj1 (update_adgroup_always_sends untouched_group
                       (answering unified_only rate_limited) eq_refl))).
  - exact (proj2 (update_adgroup_always_sends cleared_keywords
                    (answering unified_only rate_limited) eq_refl)
             eq_refl (or_intror eq_refl) eq_refl).
Defined.

(** ** At most one request, and never to the alternate version *)

Lemma token_missing (a b : string) :
  PyStr.nonempty (str_or a b) = false -> a = EmptyString /\ b = EmptyString.
Proof.
  unfold str_or. destruct a as [ | x a]; simpl; [ | discriminate ].
  intro E. apply nonempty_false in E. tauto.
Qed.

Lemma one_call_then_pure
    (service method : string) (params : json) (rest : document -> M string)
    (w : world) :
  (forall d w', snd (guarded (rest d) w') = w') ->
  (PyStr.nonempty (_get_direct_token (api_client w)) = false /\
   snd (guarded (result <- direct_request service method params false ;; rest result) w)
   = w) \/
  (PyStr.nonempty (_get_direct_token (api_client w)) = true /\
   snd (guarded (result <- direct_request service method params false ;; rest result) w)
   = after_sending w (direct_call_request (api_client w) service method params false)).
Proof.
  intro Hpure.
  destruct (PyStr.nonempty (_get_direct_token (api_client w))) eqn:Htoken.
  - right. split; [ reflexivity | ]. unfold guarded, bind at 1.
    rewrite (direct_request_outcome _ _ _ _ w Htoken).
    destruct (vendor w _) as [r | e]; [ | reflexivity ].
    destruct (is_success (status_code r)); [ | reflexivity ].
    destruct (json_doc r) as [d | msg]; [ | reflexivity ].
    exact (Hpure d _).
  - left. split; [ reflexivity | ].
    destruct (token_missing _ _ Htoken) as [Hd Hu].
    unfold guarded, bind at 1.
    rewrite (direct_request_without_token _ _ _ _ w Hd Hu). reflexivity.
Qed.

Lemma version_5_request (self : YandexAPIClient) (service method : string)
    (params : json) :
  to_version_5 (direct_call_request self service method params false).
Proof.
  unfold to_version_5, direct_call_request, _get_direct_url. cbn [verb timeout url].
  split; [ reflexivity | split; [ reflexivity | ] ].
  exists service. destruct (use_sandbox self); [ right | left ]; reflexivity.
Qed.

Ltac pure_tail :=
  intros; unfold guarded, ret;
  repeat match goal with
         | |- context [if ?b then _ else _] => destruct b
         | |- context [match first_id ?l with _ => _ end] => destruct (first_id l)
         end;
  reflexivity.

Ltac one_call :=
  match goal with
  | |- context [guarded (bind (direct_request ?s ?m ?p false) ?rest) ?w] =>
      destruct (one_call_then_pure s m p rest w) as [[Ht E] | [Ht E]];
      [ pure_tail
      | left; split; [ left; exact Ht | exact E ]
      | right; split; [ exact Ht | do 3 eexists; exact E ] ]
  end.

Lemma ads_operation_calls_once (op : ads_operation) (w : world) :
  (PyStr.nonempty (_get_direct_token (api_client w)) = false \/
   (exists params, op = UpdateAd params /\ text_ad_update_of params = [])) /\
  snd (run_ads op w) = w
  \/
  PyStr.nonempty (_get_direct_token (api_client w)) = true /\
  exists service method params,
    snd (run_ads op w)
    = after_sending w (direct_call_request (api_client w) service method params false).
Proof.
  destruct op as [op ids | p | p | p | p | p | p | p | p]; cbn [run_ads];
    [ destruct op; cbn [run_itemizing] | .. ];
    unfold direct_suspend_campaigns, direct_resume_campaigns,
      direct_archive_campaigns, direct_unarchive_campaigns,
      direct_delete_campaigns, direct_archive_ads, direct_unarchive_ads,
      direct_delete_ads, direct_suspend_ads, direct_resume_ads,
      direct_moderate_ads, direct_delete_keywords, direct_update_adgroup,
      direct_create_adgroup, direct_create_text_ad;
    cbv zeta; try one_call.
  unfold direct_update_ad. cbv zeta.
  change (optional_entry "Title" (UpdateTextAdInput.title p) ++
          optional_entry "Title2" (UpdateTextAdInput.title2 p) ++
          optional_entry "Text" (UpdateTextAdInput.text p) ++
          optional_entry "Href" (UpdateTextAdInput.href p))%list
    with (text_ad_update_of p).
  destruct (text_ad_update_of p) as [ | f fs] eqn:Hfields; cbn [any_items negb].
  - left. split; [ right; exists p; split; [ reflexivity | exact Hfields ] | reflexivity ].
  - one_call.
Qed.

(** X18.  Every operation of the ads catalog that goes through the shared
    client leaves the client and the vendor as they are and issues at most
    one request: none without a token, and none for a text-ad update
    without fields; otherwise exactly one, a POST with the default time
    limit to a service of version 5, in production or in the sandbox.  No
    operation ever addresses the alternate version v501, and none repeats
    a request. *)
Theorem ads_operations_issue_at_most_one_request (op : ads_operation) (w : world) :
  api_client (snd (run_ads op w)) = api_client w /\
  exists issued : list http_request,
    sent (snd (run_ads op w)) = (sent w ++ issued)%list /\
    (List.length issued <= 1)%nat /\
    (forall req, In req issued -> to_version_5 req) /\
    (PyStr.nonempty (_get_direct_token (api_client w)) = false -> issued = []) /\
    (PyStr.nonempty (_get_direct_token (api_client w)) = true ->
     (forall params, op = UpdateAd params -> text_ad_update_of params <> []) ->
     List.length issued = 1%nat).
Proof.
  destruct (ads_operation_calls_once op w)
    as [[Hwhy E] | [Htoken [service [method [params E]]]]]; rewrite E.
  - split; [ reflexivity | ]. exists [].
    split; [ symmetry; apply app_nil_r | ].
    split; [ simpl; lia | ].
    split; [ intros req [] | ].
    split; [ reflexivity | ].
    intros Htoken Hfields. destruct Hwhy as [Hno | [p [-> Hnone]]].
    + rewrite Hno in Htoken. discriminate Htoken.
    + exfalso. exact (Hfields p eq_refl Hnone).
  - split; [ reflexivity | ].
    exists [direct_call_request (api_client w) service method params false].
    split; [ reflexivity | ].
    split; [ simpl; lia | ].
    split; [ intros req [<- | []]; apply version_5_request | ].
    split; [ intro Hno; rewrite Hno in Htoken; discriminate Htoken | ].
    reflexivity.
Qed.

(* ================================================================== *)
(** * Further properties of the tokens and of the counter deletion *)
(* ================================================================== *)

Lemma str_or_first (a b : string) : a <> EmptyString -> str_or a b = a.
Proof. unfold str_or. destruct a; [ contradiction | reflexivity ]. Qed.

Lemma str_or_second (b : string) : str_or EmptyString b = b.
Proof. reflexivity. Qed.

Lemma authorization_of_direct_call (self : YandexAPIClient) service method params v :
  authorization (direct_call_request self service method params v)
  = Some ("Bearer " ++ _get_direct_token self).
Proof.
  unfold authorization, direct_call_request. cbn [headers].
  destruct (PyStr.nonempty (client_login self)); reflexivity.
Qed.

(** X19.  The token of a service takes precedence over the unified one, and
    the unified one stands in when the service has none: a call of the ads
    client authorizes itself with ["Bearer "] and a call of the analytics
    client with ["OAuth "], followed by the service's own token when it is
    not empty and by the unified token otherwise. *)
Theorem service_token_takes_precedence (w : world) :
  (forall service method params use_v501,
     PyStr.nonempty (_get_direct_token (api_client w)) = true ->
     exists req,
       snd (direct_request service method params use_v501 w) = after_sending w req /\
       (direct_token (api_client w) <> EmptyString ->
        authorization req = Some ("Bearer " ++ direct_token (api_client w))) /\
       (direct_token (api_client w) = EmptyString ->
        authorization req = Some ("Bearer " ++ unified_token (api_client w)))) /\
  (forall endpoint method params data,
     PyStr.nonempty (_get_metrika_token (api_client w)) = true ->
     In method ["GET"; "POST"; "PUT"; "DELETE"] ->
     exists req,
       snd (metrika_request endpoint method params data w) = after_sending w req /\
       (metrika_token (api_client w) <> EmptyString ->
        authorization req = Some ("OAuth " ++ metrika_token (api_client w))) /\
       (metrika_token (api_client w) = EmptyString ->
        authorization req = Some ("OAuth " ++ unified_token (api_client w)))).
Proof.
  split.
  - intros service method params use_v501 Htoken.
    exists (direct_call_request (api_client w) service method params use_v501).
    split; [ rewrite (direct_request_outcome _ _ _ _ w Htoken); reflexivity | ].
    rewrite authorization_of_direct_call. unfold _get_direct_token.
    split; intro H.
    + rewrite (str_or_first _ _ H). reflexivity.
    + rewrite H. reflexivity.
  - intros endpoint method params data Htoken Hmethod.
    exists (metrika_call_request (api_client w) endpoint method params data).
    split.
    + rewrite (metrika_request_outcome _ _ _ _ w Htoken Hmethod). reflexivity.
    + unfold authorization, metrika_call_request, _get_metrika_token. cbn [headers find fst].
      change (String.eqb "Authorization" "Authorization") with true. cbn [option_map snd].
      split; intro H.
      * rewrite (str_or_first _ _ H). reflexivity.
      * rewrite H. reflexivity.
Qed.

Lemma service_token_witness :
  exists req,
    snd (direct_request "campaigns" "get" (JObj []) false
           (answering all_tokens rate_limited))
    = after_sending (answering all_tokens rate_limited) req /\
    authorization req = Some "Bearer direct-token".
Proof.
  assert (Hown : direct_token all_tokens <> EmptyString) by discriminate.
  destruct (proj1 (service_token_takes_precedence (answering all_tokens rate_limited))
              "campaigns" "get" (JObj []) false eq_refl) as [req [Hsent [Hfirst _]]].
  exists req. split; [ exact Hsent | exact (Hfirst Hown) ].
Defined.

(** X20.  The deletion of a counter is announced for every answer that the
    analytics client accepts, and the body of the answer is not looked at:
    with a token, the operation returns the success sentence when the
    status is 204, or any other 2xx with a body that decodes; for a 2xx
    other than 204 whose body does not decode it returns a configuration
    error although the vendor accepted the deletion; for a status outside
    2xx it returns the classifier's string. *)
Theorem delete_counter_outcomes
    (w : world) (counter_id : Z) (fmt : ResponseFormat) (r : http_response) :
  PyStr.nonempty (_get_metrika_token (api_client w)) = true ->
  vendor w (delete_counter_request (api_client w) counter_id) = Responds r ->
  fst (metrika_delete_counter
         {| GetCounterInput.counter_id := counter_id;
            GetCounterInput.response_format := fmt |} w)
  = if is_success (status_code r) then
      if status_code r =? 204 then
        "Counter " ++ PyStr.of_Z counter_id ++ " deleted successfully."
      else
        match json_doc r with
        | Decoded _ => "Counter " ++ PyStr.of_Z counter_id ++ " deleted successfully."
        | Undecodable msg => "Configuration Error: " ++ msg
        end
    else _handle_api_error (HTTPStatusError r).
Proof.
  intros Htoken Hvendor.
  assert (Hmethod : In "DELETE" ["GET"; "POST"; "PUT"; "DELETE"]) by (simpl; tauto).
  unfold metrika_delete_counter, guarded, bind. cbn [GetCounterInput.counter_id].
  rewrite (metrika_request_outcome _ _ _ _ w Htoken Hmethod).
  change (metrika_call_request (api_client w)
            ("/management/v1/counter/" ++ PyStr.of_Z counter_id) "DELETE" None None)
    with (delete_counter_request (api_client w) counter_id).
  rewrite Hvendor.
  destruct (is_success (status_code r)); [ | reflexivity ].
  destruct (status_code r =? 204); [ reflexivity | ].
  destruct (json_doc r); reflexivity.
Qed.

Lemma delete_counter_outcomes_witness :
  fst (metrika_delete_counter
         {| GetCounterInput.counter_id := 555;
            GetCounterInput.response_format := MARKDOWN |}
         (answering unified_only (ok_json error_document)))
  = "Counter 555 deleted successfully.".
Proof.
  exact (delete_counter_outcomes (answering unified_only (ok_json error_document))
           555 MARKDOWN (ok_json error_document) eq_refl eq_refl).
Defined.
(* ================================================================== *)
(** * Further properties of the list formatters *)
(* ================================================================== *)







